(** * Upscayl gateway: a shallow embedding of app/services in Rocq

    The module [upscayle_services.py] forwards upscaling requests to the
    remote Upscayl API and polls the remote task until it is terminal.  The
    embedding below follows the Python code: JSON values as returned by
    [response.json()], the Python operators the code applies to them
    ([in], [[]], [dict.get], [str.upper], f-strings) together with the
    exceptions they raise, and the polling loop of [upscale_images_sync]
    with an injected clock, injected remote responses and a trace of the
    observable events (status checks and sleeps). *)

From Stdlib Require Import String Ascii List ZArith Lia Bool.
Import ListNotations.
Open Scope string_scope.
Set Warnings "-register-all".

(** ** JSON values and Python exceptions *)

(** A value produced by [json.loads]; numbers are modelled as integers. *)
Inductive json : Type :=
| JNull
| JBool (b : bool)
| JNum (z : Z)
| JStr (s : string)
| JArr (xs : list json)
| JObj (kvs : list (string * json)).

(** Exceptions: [HTTPException] of FastAPI, and every other Python
    exception (TypeError, AttributeError, KeyError, requests errors) by
    its class name and message. *)
Inductive exn : Type :=
| HTTPException (status_code : Z) (detail : string)
| PyError (cls : string) (msg : string).

(** A computation that returns a value or raises. *)
Inductive res (A : Type) : Type :=
| Ok (a : A)
| Raise (e : exn).
Arguments Ok {A} a.
Arguments Raise {A} e.

Definition bind {A B} (m : res A) (k : A -> res B) : res B :=
  match m with
  | Ok a => k a
  | Raise e => Raise e
  end.

Notation "'let*' x := m 'in' k" := (bind m (fun x => k))
  (at level 200, x name, m at level 100, k at level 200).

(** ** Python builtins on JSON values *)

Fixpoint assoc_lookup (k : string) (kvs : list (string * json)) : option json :=
  match kvs with
  | [] => None
  | (k', v) :: rest => if String.eqb k k' then Some v else assoc_lookup k rest
  end.

(** [d[k] = v] on a dict: replaces the value in place, or appends the key. *)
Fixpoint assoc_set (k : string) (v : json) (kvs : list (string * json))
  : list (string * json) :=
  match kvs with
  | [] => [(k, v)]
  | (k', v') :: rest =>
      if String.eqb k k' then (k', v) :: rest else (k', v') :: assoc_set k v rest
  end.

Fixpoint is_substring (sub s : string) : bool :=
  if String.prefix sub s then true
  else match s with
       | EmptyString => false
       | String _ s' => is_substring sub s'
       end.

Definition type_name (j : json) : string :=
  match j with
  | JNull => "NoneType"
  | JBool _ => "bool"
  | JNum _ => "int"
  | JStr _ => "str"
  | JArr _ => "list"
  | JObj _ => "dict"
  end.

Definition json_eq_str (s : string) (j : json) : bool :=
  match j with
  | JStr t => String.eqb s t
  | _ => false
  end.

(** [s in container] for a string [s]. *)
Definition py_contains (container : json) (s : string) : res bool :=
  match container with
  | JObj kvs => Ok (match assoc_lookup s kvs with Some _ => true | None => false end)
  | JArr xs => Ok (existsb (json_eq_str s) xs)
  | JStr t => Ok (is_substring s t)
  | j => Raise (PyError "TypeError"
                  ("argument of type '" ++ type_name j ++ "' is not iterable"))
  end.

(** [container[s]] for a string key [s]. *)
Definition py_getitem (container : json) (s : string) : res json :=
  match container with
  | JObj kvs =>
      match assoc_lookup s kvs with
      | Some v => Ok v
      | None => Raise (PyError "KeyError" s)
      end
  | JArr _ => Raise (PyError "TypeError" "list indices must be integers or slices, not str")
  | JStr _ => Raise (PyError "TypeError" "string indices must be integers")
  | j => Raise (PyError "TypeError" ("'" ++ type_name j ++ "' object is not subscriptable"))
  end.

(** [d.get(s, default)]. *)
Definition py_dict_get (d : json) (s : string) (default : json) : res json :=
  match d with
  | JObj kvs =>
      match assoc_lookup s kvs with
      | Some v => Ok v
      | None => Ok default
      end
  | j => Raise (PyError "AttributeError"
                  ("'" ++ type_name j ++ "' object has no attribute 'get'"))
  end.

(** [d[s] = v]. *)
Definition py_setitem (d : json) (s : string) (v : json) : res json :=
  match d with
  | JObj kvs => Ok (JObj (assoc_set s v kvs))
  | j => Raise (PyError "TypeError"
                  ("'" ++ type_name j ++ "' object does not support item assignment"))
  end.

(** *** Strings and [str.upper]

    A Python [str] is held as its UTF-8 encoding, byte by byte (a lone
    surrogate, which [json.loads] produces from an escape such as
    [\ud800], in its three-byte form).  [str.upper] maps every code point
    to its full uppercase mapping: [upper_table] lists every code point
    whose [chr(c).upper()] differs from [chr(c)], with the code points of
    that uppercase, as CPython 3.11 gives them (Unicode 14.0.0). *)

Definition upper_table : list (Z * list Z) := [
  (0x61, [0x41]); (0x62, [0x42]); (0x63, [0x43]); (0x64, [0x44]); (0x65, [0x45]);
  (0x66, [0x46]); (0x67, [0x47]); (0x68, [0x48]); (0x69, [0x49]); (0x6A, [0x4A]);
  (0x6B, [0x4B]); (0x6C, [0x4C]); (0x6D, [0x4D]); (0x6E, [0x4E]); (0x6F, [0x4F]);
  (0x70, [0x50]); (0x71, [0x51]); (0x72, [0x52]); (0x73, [0x53]); (0x74, [0x54]);
  (0x75, [0x55]); (0x76, [0x56]); (0x77, [0x57]); (0x78, [0x58]); (0x79, [0x59]);
  (0x7A, [0x5A]); (0xB5, [0x39C]); (0xDF, [0x53; 0x53]); (0xE0, [0xC0]); (0xE1, [0xC1]);
  (0xE2, [0xC2]); (0xE3, [0xC3]); (0xE4, [0xC4]); (0xE5, [0xC5]); (0xE6, [0xC6]);
  (0xE7, [0xC7]); (0xE8, [0xC8]); (0xE9, [0xC9]); (0xEA, [0xCA]); (0xEB, [0xCB]);
  (0xEC, [0xCC]); (0xED, [0xCD]); (0xEE, [0xCE]); (0xEF, [0xCF]); (0xF0, [0xD0]);
  (0xF1, [0xD1]); (0xF2, [0xD2]); (0xF3, [0xD3]); (0xF4, [0xD4]); (0xF5, [0xD5]);
  (0xF6, [0xD6]); (0xF8, [0xD8]); (0xF9, [0xD9]); (0xFA, [0xDA]); (0xFB, [0xDB]);
  (0xFC, [0xDC]); (0xFD, [0xDD]); (0xFE, [0xDE]); (0xFF, [0x178]); (0x101, [0x100]);
  (0x103, [0x102]); (0x105, [0x104]); (0x107, [0x106]); (0x109, [0x108]); (0x10B, [0x10A]);
  (0x10D, [0x10C]); (0x10F, [0x10E]); (0x111, [0x110]); (0x113, [0x112]); (0x115, [0x114]);
  (0x117, [0x116]); (0x119, [0x118]); (0x11B, [0x11A]); (0x11D, [0x11C]); (0x11F, [0x11E]);
  (0x121, [0x120]); (0x123, [0x122]); (0x125, [0x124]); (0x127, [0x126]); (0x129, [0x128]);
  (0x12B, [0x12A]); (0x12D, [0x12C]); (0x12F, [0x12E]); (0x131, [0x49]); (0x133, [0x132]);
  (0x135, [0x134]); (0x137, [0x136]); (0x13A, [0x139]); (0x13C, [0x13B]); (0x13E, [0x13D]);
  (0x140, [0x13F]); (0x142, [0x141]); (0x144, [0x143]); (0x146, [0x145]); (0x148, [0x147]);
  (0x149, [0x2BC; 0x4E]); (0x14B, [0x14A]); (0x14D, [0x14C]); (0x14F, [0x14E]);
  (0x151, [0x150]); (0x153, [0x152]); (0x155, [0x154]); (0x157, [0x156]); (0x159, [0x158]);
  (0x15B, [0x15A]); (0x15D, [0x15C]); (0x15F, [0x15E]); (0x161, [0x160]); (0x163, [0x162]);
  (0x165, [0x164]); (0x167, [0x166]); (0x169, [0x168]); (0x16B, [0x16A]); (0x16D, [0x16C]);
  (0x16F, [0x16E]); (0x171, [0x170]); (0x173, [0x172]); (0x175, [0x174]); (0x177, [0x176]);
  (0x17A, [0x179]); (0x17C, [0x17B]); (0x17E, [0x17D]); (0x17F, [0x53]); (0x180, [0x243]);
  (0x183, [0x182]); (0x185, [0x184]); (0x188, [0x187]); (0x18C, [0x18B]); (0x192, [0x191]);
  (0x195, [0x1F6]); (0x199, [0x198]); (0x19A, [0x23D]); (0x19E, [0x220]); (0x1A1, [0x1A0]);
  (0x1A3, [0x1A2]); (0x1A5, [0x1A4]); (0x1A8, [0x1A7]); (0x1AD, [0x1AC]); (0x1B0, [0x1AF]);
  (0x1B4, [0x1B3]); (0x1B6, [0x1B5]); (0x1B9, [0x1B8]); (0x1BD, [0x1BC]); (0x1BF, [0x1F7]);
  (0x1C5, [0x1C4]); (0x1C6, [0x1C4]); (0x1C8, [0x1C7]); (0x1C9, [0x1C7]); (0x1CB, [0x1CA]);
  (0x1CC, [0x1CA]); (0x1CE, [0x1CD]); (0x1D0, [0x1CF]); (0x1D2, [0x1D1]); (0x1D4, [0x1D3]);
  (0x1D6, [0x1D5]); (0x1D8, [0x1D7]); (0x1DA, [0x1D9]); (0x1DC, [0x1DB]); (0x1DD, [0x18E]);
  (0x1DF, [0x1DE]); (0x1E1, [0x1E0]); (0x1E3, [0x1E2]); (0x1E5, [0x1E4]); (0x1E7, [0x1E6]);
  (0x1E9, [0x1E8]); (0x1EB, [0x1EA]); (0x1ED, [0x1EC]); (0x1EF, [0x1EE]);
  (0x1F0, [0x4A; 0x30C]); (0x1F2, [0x1F1]); (0x1F3, [0x1F1]); (0x1F5, [0x1F4]);
  (0x1F9, [0x1F8]); (0x1FB, [0x1FA]); (0x1FD, [0x1FC]); (0x1FF, [0x1FE]); (0x201, [0x200]);
  (0x203, [0x202]); (0x205, [0x204]); (0x207, [0x206]); (0x209, [0x208]); (0x20B, [0x20A]);
  (0x20D, [0x20C]); (0x20F, [0x20E]); (0x211, [0x210]); (0x213, [0x212]); (0x215, [0x214]);
  (0x217, [0x216]); (0x219, [0x218]); (0x21B, [0x21A]); (0x21D, [0x21C]); (0x21F, [0x21E]);
  (0x223, [0x222]); (0x225, [0x224]); (0x227, [0x226]); (0x229, [0x228]); (0x22B, [0x22A]);
  (0x22D, [0x22C]); (0x22F, [0x22E]); (0x231, [0x230]); (0x233, [0x232]); (0x23C, [0x23B]);
  (0x23F, [0x2C7E]); (0x240, [0x2C7F]); (0x242, [0x241]); (0x247, [0x246]); (0x249, [0x248]);
  (0x24B, [0x24A]); (0x24D, [0x24C]); (0x24F, [0x24E]); (0x250, [0x2C6F]); (0x251, [0x2C6D]);
  (0x252, [0x2C70]); (0x253, [0x181]); (0x254, [0x186]); (0x256, [0x189]); (0x257, [0x18A]);
  (0x259, [0x18F]); (0x25B, [0x190]); (0x25C, [0xA7AB]); (0x260, [0x193]); (0x261, [0xA7AC]);
  (0x263, [0x194]); (0x265, [0xA78D]); (0x266, [0xA7AA]); (0x268, [0x197]); (0x269, [0x196]);
  (0x26A, [0xA7AE]); (0x26B, [0x2C62]); (0x26C, [0xA7AD]); (0x26F, [0x19C]); (0x271, [0x2C6E]);
  (0x272, [0x19D]); (0x275, [0x19F]); (0x27D, [0x2C64]); (0x280, [0x1A6]); (0x282, [0xA7C5]);
  (0x283, [0x1A9]); (0x287, [0xA7B1]); (0x288, [0x1AE]); (0x289, [0x244]); (0x28A, [0x1B1]);
  (0x28B, [0x1B2]); (0x28C, [0x245]); (0x292, [0x1B7]); (0x29D, [0xA7B2]); (0x29E, [0xA7B0]);
  (0x345, [0x399]); (0x371, [0x370]); (0x373, [0x372]); (0x377, [0x376]); (0x37B, [0x3FD]);
  (0x37C, [0x3FE]); (0x37D, [0x3FF]); (0x390, [0x399; 0x308; 0x301]); (0x3AC, [0x386]);
  (0x3AD, [0x388]); (0x3AE, [0x389]); (0x3AF, [0x38A]); (0x3B0, [0x3A5; 0x308; 0x301]);
  (0x3B1, [0x391]); (0x3B2, [0x392]); (0x3B3, [0x393]); (0x3B4, [0x394]); (0x3B5, [0x395]);
  (0x3B6, [0x396]); (0x3B7, [0x397]); (0x3B8, [0x398]); (0x3B9, [0x399]); (0x3BA, [0x39A]);
  (0x3BB, [0x39B]); (0x3BC, [0x39C]); (0x3BD, [0x39D]); (0x3BE, [0x39E]); (0x3BF, [0x39F]);
  (0x3C0, [0x3A0]); (0x3C1, [0x3A1]); (0x3C2, [0x3A3]); (0x3C3, [0x3A3]); (0x3C4, [0x3A4]);
  (0x3C5, [0x3A5]); (0x3C6, [0x3A6]); (0x3C7, [0x3A7]); (0x3C8, [0x3A8]); (0x3C9, [0x3A9]);
  (0x3CA, [0x3AA]); (0x3CB, [0x3AB]); (0x3CC, [0x38C]); (0x3CD, [0x38E]); (0x3CE, [0x38F]);
  (0x3D0, [0x392]); (0x3D1, [0x398]); (0x3D5, [0x3A6]); (0x3D6, [0x3A0]); (0x3D7, [0x3CF]);
  (0x3D9, [0x3D8]); (0x3DB, [0x3DA]); (0x3DD, [0x3DC]); (0x3DF, [0x3DE]); (0x3E1, [0x3E0]);
  (0x3E3, [0x3E2]); (0x3E5, [0x3E4]); (0x3E7, [0x3E6]); (0x3E9, [0x3E8]); (0x3EB, [0x3EA]);
  (0x3ED, [0x3EC]); (0x3EF, [0x3EE]); (0x3F0, [0x39A]); (0x3F1, [0x3A1]); (0x3F2, [0x3F9]);
  (0x3F3, [0x37F]); (0x3F5, [0x395]); (0x3F8, [0x3F7]); (0x3FB, [0x3FA]); (0x430, [0x410]);
  (0x431, [0x411]); (0x432, [0x412]); (0x433, [0x413]); (0x434, [0x414]); (0x435, [0x415]);
  (0x436, [0x416]); (0x437, [0x417]); (0x438, [0x418]); (0x439, [0x419]); (0x43A, [0x41A]);
  (0x43B, [0x41B]); (0x43C, [0x41C]); (0x43D, [0x41D]); (0x43E, [0x41E]); (0x43F, [0x41F]);
  (0x440, [0x420]); (0x441, [0x421]); (0x442, [0x422]); (0x443, [0x423]); (0x444, [0x424]);
  (0x445, [0x425]); (0x446, [0x426]); (0x447, [0x427]); (0x448, [0x428]); (0x449, [0x429]);
  (0x44A, [0x42A]); (0x44B, [0x42B]); (0x44C, [0x42C]); (0x44D, [0x42D]); (0x44E, [0x42E]);
  (0x44F, [0x42F]); (0x450, [0x400]); (0x451, [0x401]); (0x452, [0x402]); (0x453, [0x403]);
  (0x454, [0x404]); (0x455, [0x405]); (0x456, [0x406]); (0x457, [0x407]); (0x458, [0x408]);
  (0x459, [0x409]); (0x45A, [0x40A]); (0x45B, [0x40B]); (0x45C, [0x40C]); (0x45D, [0x40D]);
  (0x45E, [0x40E]); (0x45F, [0x40F]); (0x461, [0x460]); (0x463, [0x462]); (0x465, [0x464]);
  (0x467, [0x466]); (0x469, [0x468]); (0x46B, [0x46A]); (0x46D, [0x46C]); (0x46F, [0x46E]);
  (0x471, [0x470]); (0x473, [0x472]); (0x475, [0x474]); (0x477, [0x476]); (0x479, [0x478]);
  (0x47B, [0x47A]); (0x47D, [0x47C]); (0x47F, [0x47E]); (0x481, [0x480]); (0x48B, [0x48A]);
  (0x48D, [0x48C]); (0x48F, [0x48E]); (0x491, [0x490]); (0x493, [0x492]); (0x495, [0x494]);
  (0x497, [0x496]); (0x499, [0x498]); (0x49B, [0x49A]); (0x49D, [0x49C]); (0x49F, [0x49E]);
  (0x4A1, [0x4A0]); (0x4A3, [0x4A2]); (0x4A5, [0x4A4]); (0x4A7, [0x4A6]); (0x4A9, [0x4A8]);
  (0x4AB, [0x4AA]); (0x4AD, [0x4AC]); (0x4AF, [0x4AE]); (0x4B1, [0x4B0]); (0x4B3, [0x4B2]);
  (0x4B5, [0x4B4]); (0x4B7, [0x4B6]); (0x4B9, [0x4B8]); (0x4BB, [0x4BA]); (0x4BD, [0x4BC]);
  (0x4BF, [0x4BE]); (0x4C2, [0x4C1]); (0x4C4, [0x4C3]); (0x4C6, [0x4C5]); (0x4C8, [0x4C7]);
  (0x4CA, [0x4C9]); (0x4CC, [0x4CB]); (0x4CE, [0x4CD]); (0x4CF, [0x4C0]); (0x4D1, [0x4D0]);
  (0x4D3, [0x4D2]); (0x4D5, [0x4D4]); (0x4D7, [0x4D6]); (0x4D9, [0x4D8]); (0x4DB, [0x4DA]);
  (0x4DD, [0x4DC]); (0x4DF, [0x4DE]); (0x4E1, [0x4E0]); (0x4E3, [0x4E2]); (0x4E5, [0x4E4]);
  (0x4E7, [0x4E6]); (0x4E9, [0x4E8]); (0x4EB, [0x4EA]); (0x4ED, [0x4EC]); (0x4EF, [0x4EE]);
  (0x4F1, [0x4F0]); (0x4F3, [0x4F2]); (0x4F5, [0x4F4]); (0x4F7, [0x4F6]); (0x4F9, [0x4F8]);
  (0x4FB, [0x4FA]); (0x4FD, [0x4FC]); (0x4FF, [0x4FE]); (0x501, [0x500]); (0x503, [0x502]);
  (0x505, [0x504]); (0x507, [0x506]); (0x509, [0x508]); (0x50B, [0x50A]); (0x50D, [0x50C]);
  (0x50F, [0x50E]); (0x511, [0x510]); (0x513, [0x512]); (0x515, [0x514]); (0x517, [0x516]);
  (0x519, [0x518]); (0x51B, [0x51A]); (0x51D, [0x51C]); (0x51F, [0x51E]); (0x521, [0x520]);
  (0x523, [0x522]); (0x525, [0x524]); (0x527, [0x526]); (0x529, [0x528]); (0x52B, [0x52A]);
  (0x52D, [0x52C]); (0x52F, [0x52E]); (0x561, [0x531]); (0x562, [0x532]); (0x563, [0x533]);
  (0x564, [0x534]); (0x565, [0x535]); (0x566, [0x536]); (0x567, [0x537]); (0x568, [0x538]);
  (0x569, [0x539]); (0x56A, [0x53A]); (0x56B, [0x53B]); (0x56C, [0x53C]); (0x56D, [0x53D]);
  (0x56E, [0x53E]); (0x56F, [0x53F]); (0x570, [0x540]); (0x571, [0x541]); (0x572, [0x542]);
  (0x573, [0x543]); (0x574, [0x544]); (0x575, [0x545]); (0x576, [0x546]); (0x577, [0x547]);
  (0x578, [0x548]); (0x579, [0x549]); (0x57A, [0x54A]); (0x57B, [0x54B]); (0x57C, [0x54C]);
  (0x57D, [0x54D]); (0x57E, [0x54E]); (0x57F, [0x54F]); (0x580, [0x550]); (0x581, [0x551]);
  (0x582, [0x552]); (0x583, [0x553]); (0x584, [0x554]); (0x585, [0x555]); (0x586, [0x556]);
  (0x587, [0x535; 0x552]); (0x10D0, [0x1C90]); (0x10D1, [0x1C91]); (0x10D2, [0x1C92]);
  (0x10D3, [0x1C93]); (0x10D4, [0x1C94]); (0x10D5, [0x1C95]); (0x10D6, [0x1C96]);
  (0x10D7, [0x1C97]); (0x10D8, [0x1C98]); (0x10D9, [0x1C99]); (0x10DA, [0x1C9A]);
  (0x10DB, [0x1C9B]); (0x10DC, [0x1C9C]); (0x10DD, [0x1C9D]); (0x10DE, [0x1C9E]);
  (0x10DF, [0x1C9F]); (0x10E0, [0x1CA0]); (0x10E1, [0x1CA1]); (0x10E2, [0x1CA2]);
  (0x10E3, [0x1CA3]); (0x10E4, [0x1CA4]); (0x10E5, [0x1CA5]); (0x10E6, [0x1CA6]);
  (0x10E7, [0x1CA7]); (0x10E8, [0x1CA8]); (0x10E9, [0x1CA9]); (0x10EA, [0x1CAA]);
  (0x10EB, [0x1CAB]); (0x10EC, [0x1CAC]); (0x10ED, [0x1CAD]); (0x10EE, [0x1CAE]);
  (0x10EF, [0x1CAF]); (0x10F0, [0x1CB0]); (0x10F1, [0x1CB1]); (0x10F2, [0x1CB2]);
  (0x10F3, [0x1CB3]); (0x10F4, [0x1CB4]); (0x10F5, [0x1CB5]); (0x10F6, [0x1CB6]);
  (0x10F7, [0x1CB7]); (0x10F8, [0x1CB8]); (0x10F9, [0x1CB9]); (0x10FA, [0x1CBA]);
  (0x10FD, [0x1CBD]); (0x10FE, [0x1CBE]); (0x10FF, [0x1CBF]); (0x13F8, [0x13F0]);
  (0x13F9, [0x13F1]); (0x13FA, [0x13F2]); (0x13FB, [0x13F3]); (0x13FC, [0x13F4]);
  (0x13FD, [0x13F5]); (0x1C80, [0x412]); (0x1C81, [0x414]); (0x1C82, [0x41E]);
  (0x1C83, [0x421]); (0x1C84, [0x422]); (0x1C85, [0x422]); (0x1C86, [0x42A]);
  (0x1C87, [0x462]); (0x1C88, [0xA64A]); (0x1D79, [0xA77D]); (0x1D7D, [0x2C63]);
  (0x1D8E, [0xA7C6]); (0x1E01, [0x1E00]); (0x1E03, [0x1E02]); (0x1E05, [0x1E04]);
  (0x1E07, [0x1E06]); (0x1E09, [0x1E08]); (0x1E0B, [0x1E0A]); (0x1E0D, [0x1E0C]);
  (0x1E0F, [0x1E0E]); (0x1E11, [0x1E10]); (0x1E13, [0x1E12]); (0x1E15, [0x1E14]);
  (0x1E17, [0x1E16]); (0x1E19, [0x1E18]); (0x1E1B, [0x1E1A]); (0x1E1D, [0x1E1C]);
  (0x1E1F, [0x1E1E]); (0x1E21, [0x1E20]); (0x1E23, [0x1E22]); (0x1E25, [0x1E24]);
  (0x1E27, [0x1E26]); (0x1E29, [0x1E28]); (0x1E2B, [0x1E2A]); (0x1E2D, [0x1E2C]);
  (0x1E2F, [0x1E2E]); (0x1E31, [0x1E30]); (0x1E33, [0x1E32]); (0x1E35, [0x1E34]);
  (0x1E37, [0x1E36]); (0x1E39, [0x1E38]); (0x1E3B, [0x1E3A]); (0x1E3D, [0x1E3C]);
  (0x1E3F, [0x1E3E]); (0x1E41, [0x1E40]); (0x1E43, [0x1E42]); (0x1E45, [0x1E44]);
  (0x1E47, [0x1E46]); (0x1E49, [0x1E48]); (0x1E4B, [0x1E4A]); (0x1E4D, [0x1E4C]);
  (0x1E4F, [0x1E4E]); (0x1E51, [0x1E50]); (0x1E53, [0x1E52]); (0x1E55, [0x1E54]);
  (0x1E57, [0x1E56]); (0x1E59, [0x1E58]); (0x1E5B, [0x1E5A]); (0x1E5D, [0x1E5C]);
  (0x1E5F, [0x1E5E]); (0x1E61, [0x1E60]); (0x1E63, [0x1E62]); (0x1E65, [0x1E64]);
  (0x1E67, [0x1E66]); (0x1E69, [0x1E68]); (0x1E6B, [0x1E6A]); (0x1E6D, [0x1E6C]);
  (0x1E6F, [0x1E6E]); (0x1E71, [0x1E70]); (0x1E73, [0x1E72]); (0x1E75, [0x1E74]);
  (0x1E77, [0x1E76]); (0x1E79, [0x1E78]); (0x1E7B, [0x1E7A]); (0x1E7D, [0x1E7C]);
  (0x1E7F, [0x1E7E]); (0x1E81, [0x1E80]); (0x1E83, [0x1E82]); (0x1E85, [0x1E84]);
  (0x1E87, [0x1E86]); (0x1E89, [0x1E88]); (0x1E8B, [0x1E8A]); (0x1E8D, [0x1E8C]);
  (0x1E8F, [0x1E8E]); (0x1E91, [0x1E90]); (0x1E93, [0x1E92]); (0x1E95, [0x1E94]);
  (0x1E96, [0x48; 0x331]); (0x1E97, [0x54; 0x308]); (0x1E98, [0x57; 0x30A]);
  (0x1E99, [0x59; 0x30A]); (0x1E9A, [0x41; 0x2BE]); (0x1E9B, [0x1E60]); (0x1EA1, [0x1EA0]);
  (0x1EA3, [0x1EA2]); (0x1EA5, [0x1EA4]); (0x1EA7, [0x1EA6]); (0x1EA9, [0x1EA8]);
  (0x1EAB, [0x1EAA]); (0x1EAD, [0x1EAC]); (0x1EAF, [0x1EAE]); (0x1EB1, [0x1EB0]);
  (0x1EB3, [0x1EB2]); (0x1EB5, [0x1EB4]); (0x1EB7, [0x1EB6]); (0x1EB9, [0x1EB8]);
  (0x1EBB, [0x1EBA]); (0x1EBD, [0x1EBC]); (0x1EBF, [0x1EBE]); (0x1EC1, [0x1EC0]);
  (0x1EC3, [0x1EC2]); (0x1EC5, [0x1EC4]); (0x1EC7, [0x1EC6]); (0x1EC9, [0x1EC8]);
  (0x1ECB, [0x1ECA]); (0x1ECD, [0x1ECC]); (0x1ECF, [0x1ECE]); (0x1ED1, [0x1ED0]);
  (0x1ED3, [0x1ED2]); (0x1ED5, [0x1ED4]); (0x1ED7, [0x1ED6]); (0x1ED9, [0x1ED8]);
  (0x1EDB, [0x1EDA]); (0x1EDD, [0x1EDC]); (0x1EDF, [0x1EDE]); (0x1EE1, [0x1EE0]);
  (0x1EE3, [0x1EE2]); (0x1EE5, [0x1EE4]); (0x1EE7, [0x1EE6]); (0x1EE9, [0x1EE8]);
  (0x1EEB, [0x1EEA]); (0x1EED, [0x1EEC]); (0x1EEF, [0x1EEE]); (0x1EF1, [0x1EF0]);
  (0x1EF3, [0x1EF2]); (0x1EF5, [0x1EF4]); (0x1EF7, [0x1EF6]); (0x1EF9, [0x1EF8]);
  (0x1EFB, [0x1EFA]); (0x1EFD, [0x1EFC]); (0x1EFF, [0x1EFE]); (0x1F00, [0x1F08]);
  (0x1F01, [0x1F09]); (0x1F02, [0x1F0A]); (0x1F03, [0x1F0B]); (0x1F04, [0x1F0C]);
  (0x1F05, [0x1F0D]); (0x1F06, [0x1F0E]); (0x1F07, [0x1F0F]); (0x1F10, [0x1F18]);
  (0x1F11, [0x1F19]); (0x1F12, [0x1F1A]); (0x1F13, [0x1F1B]); (0x1F14, [0x1F1C]);
  (0x1F15, [0x1F1D]); (0x1F20, [0x1F28]); (0x1F21, [0x1F29]); (0x1F22, [0x1F2A]);
  (0x1F23, [0x1F2B]); (0x1F24, [0x1F2C]); (0x1F25, [0x1F2D]); (0x1F26, [0x1F2E]);
  (0x1F27, [0x1F2F]); (0x1F30, [0x1F38]); (0x1F31, [0x1F39]); (0x1F32, [0x1F3A]);
  (0x1F33, [0x1F3B]); (0x1F34, [0x1F3C]); (0x1F35, [0x1F3D]); (0x1F36, [0x1F3E]);
  (0x1F37, [0x1F3F]); (0x1F40, [0x1F48]); (0x1F41, [0x1F49]); (0x1F42, [0x1F4A]);
  (0x1F43, [0x1F4B]); (0x1F44, [0x1F4C]); (0x1F45, [0x1F4D]); (0x1F50, [0x3A5; 0x313]);
  (0x1F51, [0x1F59]); (0x1F52, [0x3A5; 0x313; 0x300]); (0x1F53, [0x1F5B]);
  (0x1F54, [0x3A5; 0x313; 0x301]); (0x1F55, [0x1F5D]); (0x1F56, [0x3A5; 0x313; 0x342]);
  (0x1F57, [0x1F5F]); (0x1F60, [0x1F68]); (0x1F61, [0x1F69]); (0x1F62, [0x1F6A]);
  (0x1F63, [0x1F6B]); (0x1F64, [0x1F6C]); (0x1F65, [0x1F6D]); (0x1F66, [0x1F6E]);
  (0x1F67, [0x1F6F]); (0x1F70, [0x1FBA]); (0x1F71, [0x1FBB]); (0x1F72, [0x1FC8]);
  (0x1F73, [0x1FC9]); (0x1F74, [0x1FCA]); (0x1F75, [0x1FCB]); (0x1F76, [0x1FDA]);
  (0x1F77, [0x1FDB]); (0x1F78, [0x1FF8]); (0x1F79, [0x1FF9]); (0x1F7A, [0x1FEA]);
  (0x1F7B, [0x1FEB]); (0x1F7C, [0x1FFA]); (0x1F7D, [0x1FFB]); (0x1F80, [0x1F08; 0x399]);
  (0x1F81, [0x1F09; 0x399]); (0x1F82, [0x1F0A; 0x399]); (0x1F83, [0x1F0B; 0x399]);
  (0x1F84, [0x1F0C; 0x399]); (0x1F85, [0x1F0D; 0x399]); (0x1F86, [0x1F0E; 0x399]);
  (0x1F87, [0x1F0F; 0x399]); (0x1F88, [0x1F08; 0x399]); (0x1F89, [0x1F09; 0x399]);
  (0x1F8A, [0x1F0A; 0x399]); (0x1F8B, [0x1F0B; 0x399]); (0x1F8C, [0x1F0C; 0x399]);
  (0x1F8D, [0x1F0D; 0x399]); (0x1F8E, [0x1F0E; 0x399]); (0x1F8F, [0x1F0F; 0x399]);
  (0x1F90, [0x1F28; 0x399]); (0x1F91, [0x1F29; 0x399]); (0x1F92, [0x1F2A; 0x399]);
  (0x1F93, [0x1F2B; 0x399]); (0x1F94, [0x1F2C; 0x399]); (0x1F95, [0x1F2D; 0x399]);
  (0x1F96, [0x1F2E; 0x399]); (0x1F97, [0x1F2F; 0x399]); (0x1F98, [0x1F28; 0x399]);
  (0x1F99, [0x1F29; 0x399]); (0x1F9A, [0x1F2A; 0x399]); (0x1F9B, [0x1F2B; 0x399]);
  (0x1F9C, [0x1F2C; 0x399]); (0x1F9D, [0x1F2D; 0x399]); (0x1F9E, [0x1F2E; 0x399]);
  (0x1F9F, [0x1F2F; 0x399]); (0x1FA0, [0x1F68; 0x399]); (0x1FA1, [0x1F69; 0x399]);
  (0x1FA2, [0x1F6A; 0x399]); (0x1FA3, [0x1F6B; 0x399]); (0x1FA4, [0x1F6C; 0x399]);
  (0x1FA5, [0x1F6D; 0x399]); (0x1FA6, [0x1F6E; 0x399]); (0x1FA7, [0x1F6F; 0x399]);
  (0x1FA8, [0x1F68; 0x399]); (0x1FA9, [0x1F69; 0x399]); (0x1FAA, [0x1F6A; 0x399]);
  (0x1FAB, [0x1F6B; 0x399]); (0x1FAC, [0x1F6C; 0x399]); (0x1FAD, [0x1F6D; 0x399]);
  (0x1FAE, [0x1F6E; 0x399]); (0x1FAF, [0x1F6F; 0x399]); (0x1FB0, [0x1FB8]); (0x1FB1, [0x1FB9]);
  (0x1FB2, [0x1FBA; 0x399]); (0x1FB3, [0x391; 0x399]); (0x1FB4, [0x386; 0x399]);
  (0x1FB6, [0x391; 0x342]); (0x1FB7, [0x391; 0x342; 0x399]); (0x1FBC, [0x391; 0x399]);
  (0x1FBE, [0x399]); (0x1FC2, [0x1FCA; 0x399]); (0x1FC3, [0x397; 0x399]);
  (0x1FC4, [0x389; 0x399]); (0x1FC6, [0x397; 0x342]); (0x1FC7, [0x397; 0x342; 0x399]);
  (0x1FCC, [0x397; 0x399]); (0x1FD0, [0x1FD8]); (0x1FD1, [0x1FD9]);
  (0x1FD2, [0x399; 0x308; 0x300]); (0x1FD3, [0x399; 0x308; 0x301]); (0x1FD6, [0x399; 0x342]);
  (0x1FD7, [0x399; 0x308; 0x342]); (0x1FE0, [0x1FE8]); (0x1FE1, [0x1FE9]);
  (0x1FE2, [0x3A5; 0x308; 0x300]); (0x1FE3, [0x3A5; 0x308; 0x301]); (0x1FE4, [0x3A1; 0x313]);
  (0x1FE5, [0x1FEC]); (0x1FE6, [0x3A5; 0x342]); (0x1FE7, [0x3A5; 0x308; 0x342]);
  (0x1FF2, [0x1FFA; 0x399]); (0x1FF3, [0x3A9; 0x399]); (0x1FF4, [0x38F; 0x399]);
  (0x1FF6, [0x3A9; 0x342]); (0x1FF7, [0x3A9; 0x342; 0x399]); (0x1FFC, [0x3A9; 0x399]);
  (0x214E, [0x2132]); (0x2170, [0x2160]); (0x2171, [0x2161]); (0x2172, [0x2162]);
  (0x2173, [0x2163]); (0x2174, [0x2164]); (0x2175, [0x2165]); (0x2176, [0x2166]);
  (0x2177, [0x2167]); (0x2178, [0x2168]); (0x2179, [0x2169]); (0x217A, [0x216A]);
  (0x217B, [0x216B]); (0x217C, [0x216C]); (0x217D, [0x216D]); (0x217E, [0x216E]);
  (0x217F, [0x216F]); (0x2184, [0x2183]); (0x24D0, [0x24B6]); (0x24D1, [0x24B7]);
  (0x24D2, [0x24B8]); (0x24D3, [0x24B9]); (0x24D4, [0x24BA]); (0x24D5, [0x24BB]);
  (0x24D6, [0x24BC]); (0x24D7, [0x24BD]); (0x24D8, [0x24BE]); (0x24D9, [0x24BF]);
  (0x24DA, [0x24C0]); (0x24DB, [0x24C1]); (0x24DC, [0x24C2]); (0x24DD, [0x24C3]);
  (0x24DE, [0x24C4]); (0x24DF, [0x24C5]); (0x24E0, [0x24C6]); (0x24E1, [0x24C7]);
  (0x24E2, [0x24C8]); (0x24E3, [0x24C9]); (0x24E4, [0x24CA]); (0x24E5, [0x24CB]);
  (0x24E6, [0x24CC]); (0x24E7, [0x24CD]); (0x24E8, [0x24CE]); (0x24E9, [0x24CF]);
  (0x2C30, [0x2C00]); (0x2C31, [0x2C01]); (0x2C32, [0x2C02]); (0x2C33, [0x2C03]);
  (0x2C34, [0x2C04]); (0x2C35, [0x2C05]); (0x2C36, [0x2C06]); (0x2C37, [0x2C07]);
  (0x2C38, [0x2C08]); (0x2C39, [0x2C09]); (0x2C3A, [0x2C0A]); (0x2C3B, [0x2C0B]);
  (0x2C3C, [0x2C0C]); (0x2C3D, [0x2C0D]); (0x2C3E, [0x2C0E]); (0x2C3F, [0x2C0F]);
  (0x2C40, [0x2C10]); (0x2C41, [0x2C11]); (0x2C42, [0x2C12]); (0x2C43, [0x2C13]);
  (0x2C44, [0x2C14]); (0x2C45, [0x2C15]); (0x2C46, [0x2C16]); (0x2C47, [0x2C17]);
  (0x2C48, [0x2C18]); (0x2C49, [0x2C19]); (0x2C4A, [0x2C1A]); (0x2C4B, [0x2C1B]);
  (0x2C4C, [0x2C1C]); (0x2C4D, [0x2C1D]); (0x2C4E, [0x2C1E]); (0x2C4F, [0x2C1F]);
  (0x2C50, [0x2C20]); (0x2C51, [0x2C21]); (0x2C52, [0x2C22]); (0x2C53, [0x2C23]);
  (0x2C54, [0x2C24]); (0x2C55, [0x2C25]); (0x2C56, [0x2C26]); (0x2C57, [0x2C27]);
  (0x2C58, [0x2C28]); (0x2C59, [0x2C29]); (0x2C5A, [0x2C2A]); (0x2C5B, [0x2C2B]);
  (0x2C5C, [0x2C2C]); (0x2C5D, [0x2C2D]); (0x2C5E, [0x2C2E]); (0x2C5F, [0x2C2F]);
  (0x2C61, [0x2C60]); (0x2C65, [0x23A]); (0x2C66, [0x23E]); (0x2C68, [0x2C67]);
  (0x2C6A, [0x2C69]); (0x2C6C, [0x2C6B]); (0x2C73, [0x2C72]); (0x2C76, [0x2C75]);
  (0x2C81, [0x2C80]); (0x2C83, [0x2C82]); (0x2C85, [0x2C84]); (0x2C87, [0x2C86]);
  (0x2C89, [0x2C88]); (0x2C8B, [0x2C8A]); (0x2C8D, [0x2C8C]); (0x2C8F, [0x2C8E]);
  (0x2C91, [0x2C90]); (0x2C93, [0x2C92]); (0x2C95, [0x2C94]); (0x2C97, [0x2C96]);
  (0x2C99, [0x2C98]); (0x2C9B, [0x2C9A]); (0x2C9D, [0x2C9C]); (0x2C9F, [0x2C9E]);
  (0x2CA1, [0x2CA0]); (0x2CA3, [0x2CA2]); (0x2CA5, [0x2CA4]); (0x2CA7, [0x2CA6]);
  (0x2CA9, [0x2CA8]); (0x2CAB, [0x2CAA]); (0x2CAD, [0x2CAC]); (0x2CAF, [0x2CAE]);
  (0x2CB1, [0x2CB0]); (0x2CB3, [0x2CB2]); (0x2CB5, [0x2CB4]); (0x2CB7, [0x2CB6]);
  (0x2CB9, [0x2CB8]); (0x2CBB, [0x2CBA]); (0x2CBD, [0x2CBC]); (0x2CBF, [0x2CBE]);
  (0x2CC1, [0x2CC0]); (0x2CC3, [0x2CC2]); (0x2CC5, [0x2CC4]); (0x2CC7, [0x2CC6]);
  (0x2CC9, [0x2CC8]); (0x2CCB, [0x2CCA]); (0x2CCD, [0x2CCC]); (0x2CCF, [0x2CCE]);
  (0x2CD1, [0x2CD0]); (0x2CD3, [0x2CD2]); (0x2CD5, [0x2CD4]); (0x2CD7, [0x2CD6]);
  (0x2CD9, [0x2CD8]); (0x2CDB, [0x2CDA]); (0x2CDD, [0x2CDC]); (0x2CDF, [0x2CDE]);
  (0x2CE1, [0x2CE0]); (0x2CE3, [0x2CE2]); (0x2CEC, [0x2CEB]); (0x2CEE, [0x2CED]);
  (0x2CF3, [0x2CF2]); (0x2D00, [0x10A0]); (0x2D01, [0x10A1]); (0x2D02, [0x10A2]);
  (0x2D03, [0x10A3]); (0x2D04, [0x10A4]); (0x2D05, [0x10A5]); (0x2D06, [0x10A6]);
  (0x2D07, [0x10A7]); (0x2D08, [0x10A8]); (0x2D09, [0x10A9]); (0x2D0A, [0x10AA]);
  (0x2D0B, [0x10AB]); (0x2D0C, [0x10AC]); (0x2D0D, [0x10AD]); (0x2D0E, [0x10AE]);
  (0x2D0F, [0x10AF]); (0x2D10, [0x10B0]); (0x2D11, [0x10B1]); (0x2D12, [0x10B2]);
  (0x2D13, [0x10B3]); (0x2D14, [0x10B4]); (0x2D15, [0x10B5]); (0x2D16, [0x10B6]);
  (0x2D17, [0x10B7]); (0x2D18, [0x10B8]); (0x2D19, [0x10B9]); (0x2D1A, [0x10BA]);
  (0x2D1B, [0x10BB]); (0x2D1C, [0x10BC]); (0x2D1D, [0x10BD]); (0x2D1E, [0x10BE]);
  (0x2D1F, [0x10BF]); (0x2D20, [0x10C0]); (0x2D21, [0x10C1]); (0x2D22, [0x10C2]);
  (0x2D23, [0x10C3]); (0x2D24, [0x10C4]); (0x2D25, [0x10C5]); (0x2D27, [0x10C7]);
  (0x2D2D, [0x10CD]); (0xA641, [0xA640]); (0xA643, [0xA642]); (0xA645, [0xA644]);
  (0xA647, [0xA646]); (0xA649, [0xA648]); (0xA64B, [0xA64A]); (0xA64D, [0xA64C]);
  (0xA64F, [0xA64E]); (0xA651, [0xA650]); (0xA653, [0xA652]); (0xA655, [0xA654]);
  (0xA657, [0xA656]); (0xA659, [0xA658]); (0xA65B, [0xA65A]); (0xA65D, [0xA65C]);
  (0xA65F, [0xA65E]); (0xA661, [0xA660]); (0xA663, [0xA662]); (0xA665, [0xA664]);
  (0xA667, [0xA666]); (0xA669, [0xA668]); (0xA66B, [0xA66A]); (0xA66D, [0xA66C]);
  (0xA681, [0xA680]); (0xA683, [0xA682]); (0xA685, [0xA684]); (0xA687, [0xA686]);
  (0xA689, [0xA688]); (0xA68B, [0xA68A]); (0xA68D, [0xA68C]); (0xA68F, [0xA68E]);
  (0xA691, [0xA690]); (0xA693, [0xA692]); (0xA695, [0xA694]); (0xA697, [0xA696]);
  (0xA699, [0xA698]); (0xA69B, [0xA69A]); (0xA723, [0xA722]); (0xA725, [0xA724]);
  (0xA727, [0xA726]); (0xA729, [0xA728]); (0xA72B, [0xA72A]); (0xA72D, [0xA72C]);
  (0xA72F, [0xA72E]); (0xA733, [0xA732]); (0xA735, [0xA734]); (0xA737, [0xA736]);
  (0xA739, [0xA738]); (0xA73B, [0xA73A]); (0xA73D, [0xA73C]); (0xA73F, [0xA73E]);
  (0xA741, [0xA740]); (0xA743, [0xA742]); (0xA745, [0xA744]); (0xA747, [0xA746]);
  (0xA749, [0xA748]); (0xA74B, [0xA74A]); (0xA74D, [0xA74C]); (0xA74F, [0xA74E]);
  (0xA751, [0xA750]); (0xA753, [0xA752]); (0xA755, [0xA754]); (0xA757, [0xA756]);
  (0xA759, [0xA758]); (0xA75B, [0xA75A]); (0xA75D, [0xA75C]); (0xA75F, [0xA75E]);
  (0xA761, [0xA760]); (0xA763, [0xA762]); (0xA765, [0xA764]); (0xA767, [0xA766]);
  (0xA769, [0xA768]); (0xA76B, [0xA76A]); (0xA76D, [0xA76C]); (0xA76F, [0xA76E]);
  (0xA77A, [0xA779]); (0xA77C, [0xA77B]); (0xA77F, [0xA77E]); (0xA781, [0xA780]);
  (0xA783, [0xA782]); (0xA785, [0xA784]); (0xA787, [0xA786]); (0xA78C, [0xA78B]);
  (0xA791, [0xA790]); (0xA793, [0xA792]); (0xA794, [0xA7C4]); (0xA797, [0xA796]);
  (0xA799, [0xA798]); (0xA79B, [0xA79A]); (0xA79D, [0xA79C]); (0xA79F, [0xA79E]);
  (0xA7A1, [0xA7A0]); (0xA7A3, [0xA7A2]); (0xA7A5, [0xA7A4]); (0xA7A7, [0xA7A6]);
  (0xA7A9, [0xA7A8]); (0xA7B5, [0xA7B4]); (0xA7B7, [0xA7B6]); (0xA7B9, [0xA7B8]);
  (0xA7BB, [0xA7BA]); (0xA7BD, [0xA7BC]); (0xA7BF, [0xA7BE]); (0xA7C1, [0xA7C0]);
  (0xA7C3, [0xA7C2]); (0xA7C8, [0xA7C7]); (0xA7CA, [0xA7C9]); (0xA7D1, [0xA7D0]);
  (0xA7D7, [0xA7D6]); (0xA7D9, [0xA7D8]); (0xA7F6, [0xA7F5]); (0xAB53, [0xA7B3]);
  (0xAB70, [0x13A0]); (0xAB71, [0x13A1]); (0xAB72, [0x13A2]); (0xAB73, [0x13A3]);
  (0xAB74, [0x13A4]); (0xAB75, [0x13A5]); (0xAB76, [0x13A6]); (0xAB77, [0x13A7]);
  (0xAB78, [0x13A8]); (0xAB79, [0x13A9]); (0xAB7A, [0x13AA]); (0xAB7B, [0x13AB]);
  (0xAB7C, [0x13AC]); (0xAB7D, [0x13AD]); (0xAB7E, [0x13AE]); (0xAB7F, [0x13AF]);
  (0xAB80, [0x13B0]); (0xAB81, [0x13B1]); (0xAB82, [0x13B2]); (0xAB83, [0x13B3]);
  (0xAB84, [0x13B4]); (0xAB85, [0x13B5]); (0xAB86, [0x13B6]); (0xAB87, [0x13B7]);
  (0xAB88, [0x13B8]); (0xAB89, [0x13B9]); (0xAB8A, [0x13BA]); (0xAB8B, [0x13BB]);
  (0xAB8C, [0x13BC]); (0xAB8D, [0x13BD]); (0xAB8E, [0x13BE]); (0xAB8F, [0x13BF]);
  (0xAB90, [0x13C0]); (0xAB91, [0x13C1]); (0xAB92, [0x13C2]); (0xAB93, [0x13C3]);
  (0xAB94, [0x13C4]); (0xAB95, [0x13C5]); (0xAB96, [0x13C6]); (0xAB97, [0x13C7]);
  (0xAB98, [0x13C8]); (0xAB99, [0x13C9]); (0xAB9A, [0x13CA]); (0xAB9B, [0x13CB]);
  (0xAB9C, [0x13CC]); (0xAB9D, [0x13CD]); (0xAB9E, [0x13CE]); (0xAB9F, [0x13CF]);
  (0xABA0, [0x13D0]); (0xABA1, [0x13D1]); (0xABA2, [0x13D2]); (0xABA3, [0x13D3]);
  (0xABA4, [0x13D4]); (0xABA5, [0x13D5]); (0xABA6, [0x13D6]); (0xABA7, [0x13D7]);
  (0xABA8, [0x13D8]); (0xABA9, [0x13D9]); (0xABAA, [0x13DA]); (0xABAB, [0x13DB]);
  (0xABAC, [0x13DC]); (0xABAD, [0x13DD]); (0xABAE, [0x13DE]); (0xABAF, [0x13DF]);
  (0xABB0, [0x13E0]); (0xABB1, [0x13E1]); (0xABB2, [0x13E2]); (0xABB3, [0x13E3]);
  (0xABB4, [0x13E4]); (0xABB5, [0x13E5]); (0xABB6, [0x13E6]); (0xABB7, [0x13E7]);
  (0xABB8, [0x13E8]); (0xABB9, [0x13E9]); (0xABBA, [0x13EA]); (0xABBB, [0x13EB]);
  (0xABBC, [0x13EC]); (0xABBD, [0x13ED]); (0xABBE, [0x13EE]); (0xABBF, [0x13EF]);
  (0xFB00, [0x46; 0x46]); (0xFB01, [0x46; 0x49]); (0xFB02, [0x46; 0x4C]);
  (0xFB03, [0x46; 0x46; 0x49]); (0xFB04, [0x46; 0x46; 0x4C]); (0xFB05, [0x53; 0x54]);
  (0xFB06, [0x53; 0x54]); (0xFB13, [0x544; 0x546]); (0xFB14, [0x544; 0x535]);
  (0xFB15, [0x544; 0x53B]); (0xFB16, [0x54E; 0x546]); (0xFB17, [0x544; 0x53D]);
  (0xFF41, [0xFF21]); (0xFF42, [0xFF22]); (0xFF43, [0xFF23]); (0xFF44, [0xFF24]);
  (0xFF45, [0xFF25]); (0xFF46, [0xFF26]); (0xFF47, [0xFF27]); (0xFF48, [0xFF28]);
  (0xFF49, [0xFF29]); (0xFF4A, [0xFF2A]); (0xFF4B, [0xFF2B]); (0xFF4C, [0xFF2C]);
  (0xFF4D, [0xFF2D]); (0xFF4E, [0xFF2E]); (0xFF4F, [0xFF2F]); (0xFF50, [0xFF30]);
  (0xFF51, [0xFF31]); (0xFF52, [0xFF32]); (0xFF53, [0xFF33]); (0xFF54, [0xFF34]);
  (0xFF55, [0xFF35]); (0xFF56, [0xFF36]); (0xFF57, [0xFF37]); (0xFF58, [0xFF38]);
  (0xFF59, [0xFF39]); (0xFF5A, [0xFF3A]); (0x10428, [0x10400]); (0x10429, [0x10401]);
  (0x1042A, [0x10402]); (0x1042B, [0x10403]); (0x1042C, [0x10404]); (0x1042D, [0x10405]);
  (0x1042E, [0x10406]); (0x1042F, [0x10407]); (0x10430, [0x10408]); (0x10431, [0x10409]);
  (0x10432, [0x1040A]); (0x10433, [0x1040B]); (0x10434, [0x1040C]); (0x10435, [0x1040D]);
  (0x10436, [0x1040E]); (0x10437, [0x1040F]); (0x10438, [0x10410]); (0x10439, [0x10411]);
  (0x1043A, [0x10412]); (0x1043B, [0x10413]); (0x1043C, [0x10414]); (0x1043D, [0x10415]);
  (0x1043E, [0x10416]); (0x1043F, [0x10417]); (0x10440, [0x10418]); (0x10441, [0x10419]);
  (0x10442, [0x1041A]); (0x10443, [0x1041B]); (0x10444, [0x1041C]); (0x10445, [0x1041D]);
  (0x10446, [0x1041E]); (0x10447, [0x1041F]); (0x10448, [0x10420]); (0x10449, [0x10421]);
  (0x1044A, [0x10422]); (0x1044B, [0x10423]); (0x1044C, [0x10424]); (0x1044D, [0x10425]);
  (0x1044E, [0x10426]); (0x1044F, [0x10427]); (0x104D8, [0x104B0]); (0x104D9, [0x104B1]);
  (0x104DA, [0x104B2]); (0x104DB, [0x104B3]); (0x104DC, [0x104B4]); (0x104DD, [0x104B5]);
  (0x104DE, [0x104B6]); (0x104DF, [0x104B7]); (0x104E0, [0x104B8]); (0x104E1, [0x104B9]);
  (0x104E2, [0x104BA]); (0x104E3, [0x104BB]); (0x104E4, [0x104BC]); (0x104E5, [0x104BD]);
  (0x104E6, [0x104BE]); (0x104E7, [0x104BF]); (0x104E8, [0x104C0]); (0x104E9, [0x104C1]);
  (0x104EA, [0x104C2]); (0x104EB, [0x104C3]); (0x104EC, [0x104C4]); (0x104ED, [0x104C5]);
  (0x104EE, [0x104C6]); (0x104EF, [0x104C7]); (0x104F0, [0x104C8]); (0x104F1, [0x104C9]);
  (0x104F2, [0x104CA]); (0x104F3, [0x104CB]); (0x104F4, [0x104CC]); (0x104F5, [0x104CD]);
  (0x104F6, [0x104CE]); (0x104F7, [0x104CF]); (0x104F8, [0x104D0]); (0x104F9, [0x104D1]);
  (0x104FA, [0x104D2]); (0x104FB, [0x104D3]); (0x10597, [0x10570]); (0x10598, [0x10571]);
  (0x10599, [0x10572]); (0x1059A, [0x10573]); (0x1059B, [0x10574]); (0x1059C, [0x10575]);
  (0x1059D, [0x10576]); (0x1059E, [0x10577]); (0x1059F, [0x10578]); (0x105A0, [0x10579]);
  (0x105A1, [0x1057A]); (0x105A3, [0x1057C]); (0x105A4, [0x1057D]); (0x105A5, [0x1057E]);
  (0x105A6, [0x1057F]); (0x105A7, [0x10580]); (0x105A8, [0x10581]); (0x105A9, [0x10582]);
  (0x105AA, [0x10583]); (0x105AB, [0x10584]); (0x105AC, [0x10585]); (0x105AD, [0x10586]);
  (0x105AE, [0x10587]); (0x105AF, [0x10588]); (0x105B0, [0x10589]); (0x105B1, [0x1058A]);
  (0x105B3, [0x1058C]); (0x105B4, [0x1058D]); (0x105B5, [0x1058E]); (0x105B6, [0x1058F]);
  (0x105B7, [0x10590]); (0x105B8, [0x10591]); (0x105B9, [0x10592]); (0x105BB, [0x10594]);
  (0x105BC, [0x10595]); (0x10CC0, [0x10C80]); (0x10CC1, [0x10C81]); (0x10CC2, [0x10C82]);
  (0x10CC3, [0x10C83]); (0x10CC4, [0x10C84]); (0x10CC5, [0x10C85]); (0x10CC6, [0x10C86]);
  (0x10CC7, [0x10C87]); (0x10CC8, [0x10C88]); (0x10CC9, [0x10C89]); (0x10CCA, [0x10C8A]);
  (0x10CCB, [0x10C8B]); (0x10CCC, [0x10C8C]); (0x10CCD, [0x10C8D]); (0x10CCE, [0x10C8E]);
  (0x10CCF, [0x10C8F]); (0x10CD0, [0x10C90]); (0x10CD1, [0x10C91]); (0x10CD2, [0x10C92]);
  (0x10CD3, [0x10C93]); (0x10CD4, [0x10C94]); (0x10CD5, [0x10C95]); (0x10CD6, [0x10C96]);
  (0x10CD7, [0x10C97]); (0x10CD8, [0x10C98]); (0x10CD9, [0x10C99]); (0x10CDA, [0x10C9A]);
  (0x10CDB, [0x10C9B]); (0x10CDC, [0x10C9C]); (0x10CDD, [0x10C9D]); (0x10CDE, [0x10C9E]);
  (0x10CDF, [0x10C9F]); (0x10CE0, [0x10CA0]); (0x10CE1, [0x10CA1]); (0x10CE2, [0x10CA2]);
  (0x10CE3, [0x10CA3]); (0x10CE4, [0x10CA4]); (0x10CE5, [0x10CA5]); (0x10CE6, [0x10CA6]);
  (0x10CE7, [0x10CA7]); (0x10CE8, [0x10CA8]); (0x10CE9, [0x10CA9]); (0x10CEA, [0x10CAA]);
  (0x10CEB, [0x10CAB]); (0x10CEC, [0x10CAC]); (0x10CED, [0x10CAD]); (0x10CEE, [0x10CAE]);
  (0x10CEF, [0x10CAF]); (0x10CF0, [0x10CB0]); (0x10CF1, [0x10CB1]); (0x10CF2, [0x10CB2]);
  (0x118C0, [0x118A0]); (0x118C1, [0x118A1]); (0x118C2, [0x118A2]); (0x118C3, [0x118A3]);
  (0x118C4, [0x118A4]); (0x118C5, [0x118A5]); (0x118C6, [0x118A6]); (0x118C7, [0x118A7]);
  (0x118C8, [0x118A8]); (0x118C9, [0x118A9]); (0x118CA, [0x118AA]); (0x118CB, [0x118AB]);
  (0x118CC, [0x118AC]); (0x118CD, [0x118AD]); (0x118CE, [0x118AE]); (0x118CF, [0x118AF]);
  (0x118D0, [0x118B0]); (0x118D1, [0x118B1]); (0x118D2, [0x118B2]); (0x118D3, [0x118B3]);
  (0x118D4, [0x118B4]); (0x118D5, [0x118B5]); (0x118D6, [0x118B6]); (0x118D7, [0x118B7]);
  (0x118D8, [0x118B8]); (0x118D9, [0x118B9]); (0x118DA, [0x118BA]); (0x118DB, [0x118BB]);
  (0x118DC, [0x118BC]); (0x118DD, [0x118BD]); (0x118DE, [0x118BE]); (0x118DF, [0x118BF]);
  (0x16E60, [0x16E40]); (0x16E61, [0x16E41]); (0x16E62, [0x16E42]); (0x16E63, [0x16E43]);
  (0x16E64, [0x16E44]); (0x16E65, [0x16E45]); (0x16E66, [0x16E46]); (0x16E67, [0x16E47]);
  (0x16E68, [0x16E48]); (0x16E69, [0x16E49]); (0x16E6A, [0x16E4A]); (0x16E6B, [0x16E4B]);
  (0x16E6C, [0x16E4C]); (0x16E6D, [0x16E4D]); (0x16E6E, [0x16E4E]); (0x16E6F, [0x16E4F]);
  (0x16E70, [0x16E50]); (0x16E71, [0x16E51]); (0x16E72, [0x16E52]); (0x16E73, [0x16E53]);
  (0x16E74, [0x16E54]); (0x16E75, [0x16E55]); (0x16E76, [0x16E56]); (0x16E77, [0x16E57]);
  (0x16E78, [0x16E58]); (0x16E79, [0x16E59]); (0x16E7A, [0x16E5A]); (0x16E7B, [0x16E5B]);
  (0x16E7C, [0x16E5C]); (0x16E7D, [0x16E5D]); (0x16E7E, [0x16E5E]); (0x16E7F, [0x16E5F]);
  (0x1E922, [0x1E900]); (0x1E923, [0x1E901]); (0x1E924, [0x1E902]); (0x1E925, [0x1E903]);
  (0x1E926, [0x1E904]); (0x1E927, [0x1E905]); (0x1E928, [0x1E906]); (0x1E929, [0x1E907]);
  (0x1E92A, [0x1E908]); (0x1E92B, [0x1E909]); (0x1E92C, [0x1E90A]); (0x1E92D, [0x1E90B]);
  (0x1E92E, [0x1E90C]); (0x1E92F, [0x1E90D]); (0x1E930, [0x1E90E]); (0x1E931, [0x1E90F]);
  (0x1E932, [0x1E910]); (0x1E933, [0x1E911]); (0x1E934, [0x1E912]); (0x1E935, [0x1E913]);
  (0x1E936, [0x1E914]); (0x1E937, [0x1E915]); (0x1E938, [0x1E916]); (0x1E939, [0x1E917]);
  (0x1E93A, [0x1E918]); (0x1E93B, [0x1E919]); (0x1E93C, [0x1E91A]); (0x1E93D, [0x1E91B]);
  (0x1E93E, [0x1E91C]); (0x1E93F, [0x1E91D]); (0x1E940, [0x1E91E]); (0x1E941, [0x1E91F]);
  (0x1E942, [0x1E920]); (0x1E943, [0x1E921])
]%Z.

Fixpoint lookup_upper (c : Z) (t : list (Z * list Z)) : option (list Z) :=
  match t with
  | [] => None
  | (c', u) :: t' => if Z.eqb c c' then Some u else lookup_upper c t'
  end.

(** [chr(c).upper()], as a list of code points. *)
Definition upper_cp (c : Z) : list Z :=
  match lookup_upper c upper_table with
  | Some u => u
  | None => [c]
  end.

Definition byte_val (a : ascii) : Z := Z.of_nat (nat_of_ascii a).
Definition byte_of (z : Z) : ascii := ascii_of_nat (Z.to_nat z).

(** A UTF-8 continuation byte, 0x80 to 0xBF. *)
Definition is_cont (a : ascii) : bool := (128 <=? byte_val a)%Z && (byte_val a <? 192)%Z.

(** The UTF-8 encoding of one code point. *)
Definition encode_cp (c : Z) : string :=
  if (c <? 0x80)%Z then String (byte_of c) EmptyString
  else if (c <? 0x800)%Z then
    String (byte_of (0xC0 + c / 64)) (String (byte_of (0x80 + c mod 64)) EmptyString)
  else if (c <? 0x10000)%Z then
    String (byte_of (0xE0 + c / 4096))
      (String (byte_of (0x80 + (c / 64) mod 64)) (String (byte_of (0x80 + c mod 64)) EmptyString))
  else
    String (byte_of (0xF0 + c / 262144))
      (String (byte_of (0x80 + (c / 4096) mod 64))
        (String (byte_of (0x80 + (c / 64) mod 64)) (String (byte_of (0x80 + c mod 64)) EmptyString))).

Fixpoint utf8_encode (cps : list Z) : string :=
  match cps with
  | [] => EmptyString
  | c :: cs => encode_cp c ++ utf8_encode cs
  end.

(** [s.upper()] on the UTF-8 bytes of [s]: each encoded code point is
    decoded, mapped by [upper_cp] and encoded again.  Every Python string
    has a UTF-8 form in which each byte belongs to such a sequence; a byte
    that starts none (which no such form contains) is copied. *)
Fixpoint str_upper (s : string) : string :=
  match s with
  | EmptyString => EmptyString
  | String a rest =>
      if (byte_val a <? 0x80)%Z then utf8_encode (upper_cp (byte_val a)) ++ str_upper rest
      else if (byte_val a <? 0xC0)%Z then String a (str_upper rest)
      else if (byte_val a <? 0xE0)%Z then
        match rest with
        | String b1 r1 =>
            if is_cont b1 then
              utf8_encode (upper_cp ((byte_val a - 0xC0) * 64 + (byte_val b1 - 0x80)))
              ++ str_upper r1
            else String a (str_upper rest)
        | EmptyString => String a (str_upper rest)
        end
      else if (byte_val a <? 0xF0)%Z then
        match rest with
        | String b1 (String b2 r2) =>
            if is_cont b1 && is_cont b2 then
              utf8_encode (upper_cp (((byte_val a - 0xE0) * 64 + (byte_val b1 - 0x80)) * 64
                                     + (byte_val b2 - 0x80)))
              ++ str_upper r2
            else String a (str_upper rest)
        | _ => String a (str_upper rest)
        end
      else if (byte_val a <? 0xF8)%Z then
        match rest with
        | String b1 (String b2 (String b3 r3)) =>
            if is_cont b1 && is_cont b2 && is_cont b3 then
              utf8_encode (upper_cp ((((byte_val a - 0xF0) * 64 + (byte_val b1 - 0x80)) * 64
                                      + (byte_val b2 - 0x80)) * 64 + (byte_val b3 - 0x80)))
              ++ str_upper r3
            else String a (str_upper rest)
        | _ => String a (str_upper rest)
        end
      else String a (str_upper rest)
  end.

(** For the proofs: how many continuation bytes a first byte calls for. *)
Definition lead_need (a : ascii) : option nat :=
  if (byte_val a <? 0x80)%Z then Some 0%nat
  else if (byte_val a <? 0xC0)%Z then None
  else if (byte_val a <? 0xE0)%Z then Some 1%nat
  else if (byte_val a <? 0xF0)%Z then Some 2%nat
  else if (byte_val a <? 0xF8)%Z then Some 3%nat
  else None.

Fixpoint conts (k : nat) (s : string) : bool :=
  match k, s with
  | O, _ => true
  | S k', String b s' => is_cont b && conts k' s'
  | S _, EmptyString => false
  end.

Definition starts_seq (a : ascii) (rest : string) : bool :=
  match lead_need a with Some k => conts k rest | None => false end.

Definition cp_ok (c : Z) : Prop := (0 <= c < 0x200000)%Z.

(** Every uppercase in the table is non-empty, made of code points, and
    made of code points that are their own uppercase. *)
Definition upper_table_ok : bool :=
  forallb (fun p => match snd p with [] => false | _ => true end &&
            forallb (fun d => (0 <=? d)%Z && (d <? 0x110000)%Z &&
                              match lookup_upper d upper_table with None => true | Some _ => false end)
                    (snd p))
          upper_table.

(** [x.upper()]: only strings have the method. *)
Definition py_upper (j : json) : res string :=
  match j with
  | JStr s => Ok (str_upper s)
  | j => Raise (PyError "AttributeError"
                  ("'" ++ type_name j ++ "' object has no attribute 'upper'"))
  end.

Fixpoint in_strs (s : string) (l : list string) : bool :=
  match l with
  | [] => false
  | t :: l' => String.eqb s t || in_strs s l'
  end.

(** Decimal rendering of integers, as [str(int)]. *)
Fixpoint digits_of_pos (fuel : nat) (n : N) (acc : string) : string :=
  match fuel with
  | O => acc
  | S f =>
      let d := N.modulo n 10 in
      let acc' := String (ascii_of_N (48 + d)) acc in
      let q := N.div n 10 in
      if (q =? 0)%N then acc' else digits_of_pos f q acc'
  end.

Definition z_str (z : Z) : string :=
  let s := digits_of_pos (S (N.size_nat (Z.to_N (Z.abs z)))) (Z.to_N (Z.abs z)) "" in
  if (z <? 0)%Z then "-" ++ s else s.

Fixpoint join (sep : string) (l : list string) : string :=
  match l with
  | [] => ""
  | [x] => x
  | x :: l' => x ++ sep ++ join sep l'
  end.

(** [repr] of a JSON value (strings quoted, escapes not modelled). *)
Fixpoint py_repr (j : json) : string :=
  match j with
  | JNull => "None"
  | JBool true => "True"
  | JBool false => "False"
  | JNum z => z_str z
  | JStr s => "'" ++ s ++ "'"
  | JArr xs => "[" ++ join ", " (map py_repr xs) ++ "]"
  | JObj kvs =>
      "{" ++ join ", " (map (fun kv => "'" ++ fst kv ++ "': " ++ py_repr (snd kv)) kvs)
      ++ "}"
  end.

(** [str(x)], as used by f-strings. *)
Definition py_str (j : json) : string :=
  match j with
  | JStr s => s
  | j => py_repr j
  end.

Definition exn_str (e : exn) : string :=
  match e with
  | HTTPException c d => d
  | PyError _ m => m
  end.

(** ** Request data (app/services/upscayle_schema.py) *)

(** A FastAPI [UploadFile]; the content type may be missing ([None]). *)
Record UploadFile : Type := {
  filename : string;
  content_type : option string;
  file_content : string
}.

Record UpscaleRequest : Type := {
  model : string;
  scale : string;
  saveImageAs : string;
  enhanceFace : bool;
  urls : option (list string)
}.

(** What a [requests.post] ends with: a [RequestException] (connection
    error, non-success status raised by [raise_for_status], undecodable
    body) with its message, or the decoded JSON body. *)
Inductive remote_response : Type :=
| RemoteError (msg : string)
| RemoteBody (body : json).

(** Observable events: the two outbound POSTs and the sleeps. *)
Inductive event : Type :=
| EStartTask (files_data : list (string * (string * string * option string)))
             (payload : list (string * string))
| EGetTaskStatus (payload : json)
| ESleep (ms : Z).

Definition py_bool_lower (b : bool) : string := if b then "true" else "false".

Definition dquote : string := String (ascii_of_nat 34) EmptyString.

(** [json.dumps] of a list of strings (escapes not modelled). *)
Definition json_dumps_strs (l : list string) : string :=
  "[" ++ join ", " (map (fun u => dquote ++ u ++ dquote) l) ++ "]".

Definition nat_str (n : nat) : string := z_str (Z.of_nat n).

Definition opt_str (o : option string) : string :=
  match o with Some s => s | None => "None" end.

(** ** [UpscayleService.upscale_images]: the start-task call *)

Definition files_data_of (files : list UploadFile)
  : list (string * (string * string * option string)) :=
  map (fun p => (nat_str (fst p) ++ ".file",
                 (filename (snd p), file_content (snd p), content_type (snd p))))
      (combine (seq 0 (length files)) files).

Definition start_payload (request_params : UpscaleRequest) : list (string * string) :=
  ([("model", model request_params);
   ("scale", scale request_params);
   ("saveImageAs", saveImageAs request_params);
   ("enhanceFace", py_bool_lower (enhanceFace request_params))]
  ++ (match urls request_params with
      | Some ((_ :: _) as us) => [("urls", json_dumps_strs us)]
      | _ => []
      end))%list.

(** One POST to [/start-task]; a [RequestException] becomes an HTTP 500. *)
Definition upscale_images_service (start_remote : remote_response)
    (files : list UploadFile) (request_params : UpscaleRequest)
  : res json * list event :=
  let ev := EStartTask (files_data_of files) (start_payload request_params) in
  match start_remote with
  | RemoteError m =>
      (Raise (HTTPException 500 ("Error communicating with Upscayl API: " ++ m)), [ev])
  | RemoteBody j => (Ok j, [ev])
  end.

(** ** The [POST /upscale/images] route (app/services/upscayle_route.py) *)

Definition allowed_types : list string :=
  ["image/jpeg"; "image/jpg"; "image/png"; "image/webp"].

Definition type_allowed (ct : option string) : bool :=
  match ct with
  | Some s => in_strs s allowed_types
  | None => false
  end.

(** The first file whose content type is rejected, as the [for] loop finds it. *)
Fixpoint first_invalid (files : list UploadFile) : option UploadFile :=
  match files with
  | [] => None
  | f :: rest => if type_allowed (content_type f) then first_invalid rest else Some f
  end.

Definition route_upscale_images (start_remote : remote_response)
    (files : list UploadFile) (model0 scale0 saveImageAs0 : string) (enhanceFace0 : bool)
  : res json * list event :=
  if (3 <? length files)%nat then
    (Raise (HTTPException 400 "Maximum 3 files allowed per request"), [])
  else
    match first_invalid files with
    | Some f =>
        (Raise (HTTPException 400 ("Invalid file type: " ++ opt_str (content_type f)
                                   ++ ". Allowed: " ++ join ", " allowed_types)), [])
    | None =>
        upscale_images_service start_remote files
          {| model := model0; scale := scale0; saveImageAs := saveImageAs0;
             enhanceFace := enhanceFace0; urls := None |}
    end.

(** ** [UpscayleService.get_task_status] *)

Definition base_url : string := "https://upscayl.org".

(** The [for file_info in data["files"]] loop, appending to [image_urls]. *)
Fixpoint collect_urls (entries : list json) (image_urls : list json) : list json :=
  match entries with
  | [] => image_urls
  | file_info :: rest =>
      let image_urls' :=
        match file_info with
        | JObj kvs =>
            match assoc_lookup "url" kvs with
            | Some u => (image_urls ++ [u])%list
            | None =>
                match assoc_lookup "path" kvs with
                | Some p => (image_urls ++ [JStr (base_url ++ "/" ++ py_str p)])%list
                | None => image_urls
                end
            end
        | _ => image_urls
        end in
      collect_urls rest image_urls'
  end.

(** Lines 109-133: post-processing of the decoded response [result]. *)
Definition get_task_status_body (result : json) : res json :=
  let* has_data := py_contains result "data" in
  if has_data then
    let* data := py_getitem result "data" in
    let* task_status := py_dict_get data "status" (JStr "") in
    let* has_files := py_contains data "files" in
    let* image_urls :=
      (if has_files then
         let* files := py_getitem data "files" in
         Ok (match files with
             | JArr entries => collect_urls entries []
             | _ => []
             end)
       else Ok []) in
    let* result1 := py_setitem result "image_urls" (JArr image_urls) in
    py_setitem result1 "task_status" task_status
  else Ok result.

Definition status_request (task_id : json) : json :=
  JObj [("data", JObj [("taskId", task_id)])].

(** The whole method: the remote answer to the POST, then the
    post-processing; every exception is turned into an HTTP 500. *)
Definition get_task_status (remote : remote_response) : res json :=
  match remote with
  | RemoteError m => Raise (HTTPException 500 ("Error fetching task status: " ++ m))
  | RemoteBody result =>
      match get_task_status_body result with
      | Ok v => Ok v
      | Raise e => Raise (HTTPException 500 ("Error processing task status: " ++ exn_str e))
      end
  end.

(** ** The polling loop of [upscale_images_sync] *)

Definition completed_statuses : list string :=
  ["PROCESSED"; "COMPLETED"; "COMPLETE"; "SUCCESS"; "DONE"].

Definition failed_statuses : list string := ["FAILED"; "ERROR"].

(** Lines 193-218, the part of the [try] block after the call: [Some r]
    returns [r], [None] falls through to the timeout check.  The branch
    on ENHANCING/PENDING/PROCESSING/QUEUED and the [else] branches only
    log, so they all fall through. *)
Definition classify_response (status_response : json) : res (option json) :=
  let* has_data := py_contains status_response "data" in
  if has_data then
    let* data := py_getitem status_response "data" in
    let* raw_status := py_dict_get data "status" (JStr "") in
    let* task_status := py_upper raw_status in
    if in_strs task_status completed_statuses then Ok (Some status_response)
    else if in_strs task_status failed_statuses then
      let* error_msg := py_dict_get data "error" (JStr "Unknown error") in
      Raise (HTTPException 500 ("Image upscaling failed: " ++ py_str error_msg))
    else Ok None
  else Ok None.

Inductive iter_outcome : Type :=
| IReturn (r : json)
| IRaise (e : exn)
| IContinue.

(** Lines 185-223: [try: status_response = self.get_task_status(task_id); ...]
    [except HTTPException: raise] [except Exception: log]. *)
Definition poll_iteration (status_call : res json) : iter_outcome :=
  match (let* status_response := status_call in classify_response status_response) with
  | Ok (Some r) => IReturn r
  | Ok None => IContinue
  | Raise (HTTPException c d) => IRaise (HTTPException c d)
  | Raise (PyError _ _) => IContinue
  end.

(** The backoff schedule, in milliseconds. *)
Definition poll_intervals : list Z := [500; 500; 1000; 1000; 2000; 2000; 3000; 5000; 10000]%Z.

Definition current_interval (poll_index : nat) : Z :=
  nth (Nat.min poll_index (length poll_intervals - 1)) poll_intervals 0%Z.

(** The environment of a run: the remote answer to the status request of
    the [i]-th iteration, and the time in milliseconds the [i]-th call to
    [get_task_status] takes (the clock moves by these and by the sleeps). *)
Record Env : Type := {
  env_status : nat -> json -> remote_response;
  env_cost : nat -> Z
}.

Record PollState : Type := {
  poll_index : nat;
  check_count : nat;
  now : Z   (** [time.time() - start_time], in milliseconds *)
}.

Definition timeout_detail (elapsed_time : Z) (task_id : json) : string :=
  "Task processing timeout after " ++ z_str (elapsed_time / 1000) ++ " seconds. Task ID: "
  ++ py_str task_id ++ ". Check status at /upscale/task/" ++ py_str task_id.

(** The [while True] loop, run for at most [fuel] iterations ([None]
    when the fuel runs out), with the trace of its events. *)
Fixpoint poll_loop (env : Env) (task_id : json) (max_wait_time : Z) (fuel : nat)
    (st : PollState) : option (res json) * list event :=
  match fuel with
  | O => (None, [])
  | S fuel' =>
      let req := status_request task_id in
      let status_call := get_task_status (env_status env (poll_index st) req) in
      let now1 := (now st + env_cost env (poll_index st))%Z in
      let check_count' :=
        match status_call with Ok _ => S (check_count st) | Raise _ => check_count st end in
      let ev := EGetTaskStatus req in
      match poll_iteration status_call with
      | IReturn r => (Some (Ok r), [ev])
      | IRaise e => (Some (Raise e), [ev])
      | IContinue =>
          let elapsed_time := now1 in
          if (max_wait_time * 1000 <? elapsed_time)%Z then
            (Some (Raise (HTTPException 408 (timeout_detail elapsed_time task_id))), [ev])
          else
            let iv := current_interval (poll_index st) in
            let (r, tr) :=
              poll_loop env task_id max_wait_time fuel'
                {| poll_index := S (poll_index st); check_count := check_count';
                   now := (now1 + iv)%Z |} in
            (r, ev :: ESleep iv :: tr)
      end
  end.

Definition init_state : PollState := {| poll_index := 0; check_count := 0; now := 0%Z |}.

(** Lines 165-173: the check of the start response and the task id. *)
Definition extract_task_id (task_response : json) : res json :=
  let* has_data := py_contains task_response "data" in
  let* has_id :=
    (if has_data then
       let* d := py_getitem task_response "data" in py_contains d "taskId"
     else Ok false) in
  if has_id then
    let* d := py_getitem task_response "data" in py_getitem d "taskId"
  else Raise (HTTPException 500 "Failed to create upscaling task").

Definition upscale_images_sync (start_remote : remote_response) (env : Env)
    (files : list UploadFile) (request_params : UpscaleRequest)
    (max_wait_time : Z) (fuel : nat) : option (res json) * list event :=
  let (started, evs0) := upscale_images_service start_remote files request_params in
  match started with
  | Raise e => (Some (Raise e), evs0)
  | Ok task_response =>
      match extract_task_id task_response with
      | Raise e => (Some (Raise e), evs0)
      | Ok task_id =>
          let (r, evs) := poll_loop env task_id max_wait_time fuel init_state in
          (r, (evs0 ++ evs)%list)
      end
  end.

(** FastAPI answers an uncaught exception with a 500. *)
Definition http_status (e : exn) : Z :=
  match e with
  | HTTPException c _ => c
  | PyError _ _ => 500
  end.

Definition is_status_check (ev : event) : bool :=
  match ev with EGetTaskStatus _ => true | _ => false end.

Definition status_checks (evs : list event) : nat := length (filter is_status_check evs).

(** ** Reading of the spec, for comparison with the code *)

(** The URL a file entry contributes, in the spec's preference order:
    the direct URL, else the base URL joined with the relative path. *)
Definition entry_url (file_info : json) : option json :=
  match file_info with
  | JObj kvs =>
      match assoc_lookup "url" kvs, assoc_lookup "path" kvs with
      | Some u, _ => Some u
      | None, Some p => Some (JStr (base_url ++ "/" ++ py_str p))
      | None, None => None
      end
  | _ => None
  end.

Fixpoint derived_urls (entries : list json) : list json :=
  match entries with
  | [] => []
  | e :: rest =>
      match entry_url e with
      | Some u => u :: derived_urls rest
      | None => derived_urls rest
      end
  end.

(** The backoff schedule as the spec words it: the listed values, then
    10 seconds for ever. *)
Definition backoff_spec (i : nat) : Z :=
  nth i [500; 500; 1000; 1000; 2000; 2000; 3000; 5000; 10000]%Z 10000%Z.

(** The elapsed time, in milliseconds, right after the [i]-th status check
    of a run that reaches iteration [k] at time [t0] and in which each
    earlier iteration was followed by its wait of the schedule. *)
Fixpoint check_elapsed (env : Env) (k : nat) (t0 : Z) (i : nat) : Z :=
  match i with
  | O => (t0 + env_cost env k)%Z
  | S i' => check_elapsed env (S k) (t0 + env_cost env k + backoff_spec k)%Z i'
  end.

(** The result of one iteration with the returned payload forgotten. *)
Definition outcome_shape (o : res (option json)) : res bool :=
  match o with
  | Ok (Some _) => Ok true
  | Ok None => Ok false
  | Raise e => Raise e
  end.

(** ** Lemmas about the Python builtins *)

Lemma in_strs_In (s : string) (l : list string) : in_strs s l = true <-> In s l.
Proof.
  induction l as [|t l IH]; simpl.
  - split; [discriminate | tauto].
  - rewrite orb_true_iff, IH, String.eqb_eq. intuition congruence.
Qed.

Lemma assoc_lookup_set_eq (k : string) (v : json) (kvs : list (string * json)) :
  assoc_lookup k (assoc_set k v kvs) = Some v.
Proof.
  induction kvs as [|[k' v'] kvs IH]; simpl.
  - rewrite String.eqb_refl. reflexivity.
  - destruct (String.eqb k k') eqn:E; simpl; rewrite E; [reflexivity | exact IH].
Qed.

Lemma assoc_lookup_set_neq (k k0 : string) (v : json) (kvs : list (string * json)) :
  k0 <> k -> assoc_lookup k0 (assoc_set k v kvs) = assoc_lookup k0 kvs.
Proof.
  intros Hne. induction kvs as [|[k' v'] kvs IH]; simpl.
  - destruct (String.eqb_spec k0 k); [contradiction | reflexivity].
  - destruct (String.eqb_spec k k') as [->|Hk]; simpl.
    + destruct (String.eqb_spec k0 k'); [contradiction | reflexivity].
    + destruct (String.eqb k0 k'); [reflexivity | exact IH].
Qed.

Lemma first_invalid_found (files : list UploadFile) (f : UploadFile) :
  In f files -> type_allowed (content_type f) = false ->
  exists g, first_invalid files = Some g.
Proof.
  induction files as [|f' files IH]; simpl; [tauto|].
  intros [->|Hin] Hf.
  - rewrite Hf. eauto.
  - destruct (type_allowed (content_type f')); eauto.
Qed.

Lemma type_allowed_true (ct : option string) :
  type_allowed ct = true ->
  In ct [Some "image/jpeg"; Some "image/jpg"; Some "image/png"; Some "image/webp"].
Proof.
  destruct ct as [s|]; [|discriminate].
  unfold type_allowed. intros H. apply in_strs_In in H. simpl in H.
  intuition (subst; simpl; auto).
Qed.

Lemma collect_urls_app (entries acc : list json) :
  collect_urls entries acc = (acc ++ derived_urls entries)%list.
Proof.
  revert acc. induction entries as [|e rest IH]; intros acc; simpl.
  - rewrite app_nil_r. reflexivity.
  - rewrite IH. unfold entry_url.
    destruct e; simpl; try reflexivity.
    destruct (assoc_lookup "url" kvs), (assoc_lookup "path" kvs);
      rewrite <- ?app_assoc; reflexivity.
Qed.


(** ** C2: the route rejects bad uploads before any remote call *)

(** C2: a request with more than 3 files, or with a file whose content
    type is not one of image/jpeg, image/jpg, image/png, image/webp, is
    answered with an HTTP 400 and no outbound request is made. *)
Theorem route_rejects_before_remote_call (start_remote : remote_response)
    (files : list UploadFile) (model0 scale0 saveImageAs0 : string) (enhanceFace0 : bool) :
  ((3 < length files)%nat \/
   exists f, In f files /\
     ~ In (content_type f) [Some "image/jpeg"; Some "image/jpg"; Some "image/png"; Some "image/webp"]) ->
  exists detail,
    route_upscale_images start_remote files model0 scale0 saveImageAs0 enhanceFace0
    = (Raise (HTTPException 400 detail), []).
Proof.
  intros H. unfold route_upscale_images.
  destruct (Nat.ltb_spec 3 (length files)) as [Hlt|Hge]; [eauto|].
  destruct H as [H|[f [Hin Hct]]]; [lia|].
  destruct (type_allowed (content_type f)) eqn:E.
  - exfalso. apply Hct, type_allowed_true, E.
  - destruct (first_invalid_found files f Hin E) as [g ->]. eauto.
Qed.

Definition png_file : UploadFile :=
  {| filename := "a.png"; content_type := Some "image/png"; file_content := "x" |}.
Definition gif_file : UploadFile :=
  {| filename := "b.gif"; content_type := Some "image/gif"; file_content := "y" |}.

Lemma route_rejects_before_remote_call_witness :
  (exists f, In f [png_file; gif_file] /\
     ~ In (content_type f) [Some "image/jpeg"; Some "image/jpg"; Some "image/png"; Some "image/webp"])
  /\ exists detail,
    route_upscale_images (RemoteBody JNull) [png_file; gif_file] "m" "4" "jpg" true
    = (Raise (HTTPException 400 detail), []).
Proof.
  assert (H : exists f, In f [png_file; gif_file] /\
     ~ In (content_type f) [Some "image/jpeg"; Some "image/jpg"; Some "image/png"; Some "image/webp"]).
  { exists gif_file. split; [simpl; auto|]. simpl. intuition discriminate. }
  split; [exact H|].
  apply (route_rejects_before_remote_call (RemoteBody JNull) [png_file; gif_file] "m" "4" "jpg" true).
  right. exact H.
Defined.

Lemma get_task_status_no_data (kvs : list (string * json)) :
  assoc_lookup "data" kvs = None -> get_task_status (RemoteBody (JObj kvs)) = Ok (JObj kvs).
Proof.
  intros Hd. unfold get_task_status, get_task_status_body, py_contains.
  rewrite Hd. reflexivity.
Qed.

(** ** C4: the derived URLs of a status response *)

Lemma get_task_status_data_obj (kvs dkvs : list (string * json)) :
  assoc_lookup "data" kvs = Some (JObj dkvs) ->
  get_task_status (RemoteBody (JObj kvs)) =
  Ok (JObj (assoc_set "task_status"
              (match assoc_lookup "status" dkvs with Some v => v | None => JStr "" end)
              (assoc_set "image_urls"
                 (JArr (match assoc_lookup "files" dkvs with
                        | Some (JArr entries) => collect_urls entries []
                        | _ => []
                        end)) kvs))).
Proof.
  intros Hd. unfold get_task_status, get_task_status_body, py_contains, py_getitem.
  rewrite Hd. simpl.
  destruct (assoc_lookup "status" dkvs); simpl;
    destruct (assoc_lookup "files" dkvs); reflexivity.
Qed.

(** C4: when the result object holds a file-entry list, [image_urls] lists,
    entry by entry and in order, the entry's direct URL if it has one,
    else the base URL joined with its relative path, and skips entries
    with neither field. *)
Theorem get_task_status_urls (kvs dkvs : list (string * json)) (entries : list json) :
  assoc_lookup "data" kvs = Some (JObj dkvs) ->
  assoc_lookup "files" dkvs = Some (JArr entries) ->
  exists kvs', get_task_status (RemoteBody (JObj kvs)) = Ok (JObj kvs') /\
    assoc_lookup "image_urls" kvs' = Some (JArr (derived_urls entries)).
Proof.
  intros Hd Hf. rewrite (get_task_status_data_obj kvs dkvs Hd), Hf.
  eexists. split; [reflexivity|].
  rewrite assoc_lookup_set_neq by discriminate.
  rewrite assoc_lookup_set_eq, collect_urls_app. reflexivity.
Qed.

Definition sample_entries : list json :=
  [JObj [("url", JStr "http://x/a.png"); ("path", JStr "b.png")];
   JObj [("path", JStr "b.png")];
   JObj [("size", JNum 3)];
   JStr "c.png"].

Definition sample_status : list (string * json) :=
  [("data", JObj [("status", JStr "PROCESSED"); ("files", JArr sample_entries)])].

Lemma get_task_status_urls_witness :
  exists kvs', get_task_status (RemoteBody (JObj sample_status)) = Ok (JObj kvs') /\
    assoc_lookup "image_urls" kvs' = Some (JArr [JStr "http://x/a.png"; JStr "https://upscayl.org/b.png"]).
Proof.
  exact (get_task_status_urls sample_status
           [("status", JStr "PROCESSED"); ("files", JArr sample_entries)]
           sample_entries eq_refl eq_refl).
Defined.

(** ** C10: what [get_task_status] adds to the remote response *)




(** ** Classification of a status response *)

(** *** [str.upper] *)

Lemma upper_table_ok_true : upper_table_ok = true.
Proof. vm_compute. reflexivity. Qed.

Lemma lookup_upper_In (c : Z) (u : list Z) (t : list (Z * list Z)) :
  lookup_upper c t = Some u -> In (c, u) t.
Proof.
  induction t as [|[c' u'] t IH]; simpl; [discriminate|].
  destruct (Z.eqb_spec c c') as [->|]; intros H; [injection H as ->; left; reflexivity|].
  right. exact (IH H).
Qed.

Lemma upper_table_entry (c : Z) (u : list Z) :
  lookup_upper c upper_table = Some u ->
  u <> [] /\ forall d, In d u -> (0 <= d < 0x110000)%Z /\ lookup_upper d upper_table = None.
Proof.
  intros H. apply lookup_upper_In in H.
  pose proof upper_table_ok_true as Hok. unfold upper_table_ok in Hok.
  rewrite forallb_forall in Hok. specialize (Hok _ H). cbn [snd] in Hok.
  apply andb_true_iff in Hok as [Hne Hall]. split; [destruct u; [discriminate Hne|discriminate]|].
  intros d Hd. rewrite forallb_forall in Hall. specialize (Hall d Hd).
  apply andb_true_iff in Hall as [Hr Hl]. apply andb_true_iff in Hr as [H1 H2].
  apply Z.leb_le in H1. apply Z.ltb_lt in H2. split; [lia|].
  destruct (lookup_upper d upper_table); [discriminate Hl|reflexivity].
Qed.

Lemma upper_cp_range (c : Z) :
  cp_ok c -> upper_cp c <> [] /\ Forall cp_ok (upper_cp c).
Proof.
  intros Hc. unfold upper_cp. destruct (lookup_upper c upper_table) as [u|] eqn:E.
  - destruct (upper_table_entry c u E) as [Hne Hall]. split; [exact Hne|].
    apply Forall_forall. intros d Hd. destruct (Hall d Hd) as [Hr _]. unfold cp_ok. lia.
  - split; [discriminate|]. constructor; [exact Hc|constructor].
Qed.

Lemma upper_cp_idem (c : Z) : flat_map upper_cp (upper_cp c) = upper_cp c.
Proof.
  unfold upper_cp at 2 3. destruct (lookup_upper c upper_table) as [u|] eqn:E.
  - destruct (upper_table_entry c u E) as [_ Hall].
    clear E. induction u as [|d u IH]; simpl; [reflexivity|].
    unfold upper_cp at 1. rewrite (proj2 (Hall d (or_introl eq_refl))). simpl.
    f_equal. apply IH. intros d' Hd'. apply Hall. right. exact Hd'.
  - simpl. unfold upper_cp. rewrite E. reflexivity.
Qed.

Lemma byte_val_bound (a : ascii) : (0 <= byte_val a < 256)%Z.
Proof. unfold byte_val. pose proof (nat_ascii_bounded a). lia. Qed.

Lemma byte_val_of (z : Z) : (0 <= z < 256)%Z -> byte_val (byte_of z) = z.
Proof.
  intros Hz. unfold byte_val, byte_of. rewrite nat_ascii_embedding by lia. lia.
Qed.

Lemma str_app_assoc (s1 s2 s3 : string) : (s1 ++ s2) ++ s3 = s1 ++ (s2 ++ s3).
Proof. induction s1 as [|c s1 IH]; simpl; [reflexivity|]. rewrite IH. reflexivity. Qed.

Lemma utf8_encode_app (l1 l2 : list Z) :
  utf8_encode (l1 ++ l2) = utf8_encode l1 ++ utf8_encode l2.
Proof.
  induction l1 as [|c l1 IH]; simpl; [reflexivity|]. rewrite IH, str_app_assoc. reflexivity.
Qed.

Lemma div4096 (d : Z) : (d / 4096 = d / 64 / 64)%Z.
Proof. rewrite Z.div_div by lia. reflexivity. Qed.

Lemma div262144 (d : Z) : (d / 262144 = d / 64 / 64 / 64)%Z.
Proof. rewrite !Z.div_div by lia. reflexivity. Qed.

Ltac zcmp :=
  repeat match goal with
  | |- context [(?x <? ?y)%Z] =>
      first [rewrite (proj2 (Z.ltb_lt x y)) by lia | rewrite (proj2 (Z.ltb_ge x y)) by lia]
  | |- context [(?x <=? ?y)%Z] =>
      first [rewrite (proj2 (Z.leb_le x y)) by lia | rewrite (proj2 (Z.leb_gt x y)) by lia]
  end.

Lemma is_cont_true (b : ascii) : is_cont b = true -> (128 <= byte_val b < 192)%Z.
Proof. unfold is_cont. rewrite andb_true_iff, Z.leb_le, Z.ltb_lt. lia. Qed.

Lemma is_cont_of (z : Z) : (128 <= z < 192)%Z -> is_cont (byte_of z) = true.
Proof. intros Hz. unfold is_cont. rewrite byte_val_of by lia. zcmp. reflexivity. Qed.

Lemma not_cont_of (z : Z) : (0 <= z < 128 \/ 192 <= z < 256)%Z -> is_cont (byte_of z) = false.
Proof. intros Hz. unfold is_cont. rewrite byte_val_of by lia. destruct Hz; zcmp; reflexivity. Qed.

(** Splitting a code point into 6-bit groups. *)
Ltac split_cp d :=
  pose proof (Z.div_mod d 64 ltac:(lia)); pose proof (Z.mod_pos_bound d 64 ltac:(lia));
  pose proof (Z.div_mod (d / 64) 64 ltac:(lia)); pose proof (Z.mod_pos_bound (d / 64) 64 ltac:(lia));
  pose proof (Z.div_mod (d / 64 / 64) 64 ltac:(lia));
  pose proof (Z.mod_pos_bound (d / 64 / 64) 64 ltac:(lia));
  rewrite ?div262144, ?div4096;
  set (q3 := (d / 64 / 64 / 64)%Z) in *; set (r3 := (d / 64 / 64 mod 64)%Z) in *;
  set (r2 := (d / 64 mod 64)%Z) in *; set (r1 := (d mod 64)%Z) in *;
  set (q2 := (d / 64 / 64)%Z) in *; set (q1 := (d / 64)%Z) in *.

Lemma encode_cp_head (d : Z) :
  cp_ok d -> exists b s', encode_cp d = String b s' /\ is_cont b = false.
Proof.
  unfold cp_ok, encode_cp. intros Hd. split_cp d.
  destruct (Z.ltb_spec d 0x80); [do 2 eexists; split; [reflexivity|apply not_cont_of; lia]|].
  destruct (Z.ltb_spec d 0x800); [do 2 eexists; split; [reflexivity|apply not_cont_of; lia]|].
  destruct (Z.ltb_spec d 0x10000); do 2 eexists; (split; [reflexivity|apply not_cont_of; lia]).
Qed.

Lemma str_upper_encode_cp (d : Z) (X : string) :
  cp_ok d -> str_upper (encode_cp d ++ X) = utf8_encode (upper_cp d) ++ str_upper X.
Proof.
  unfold cp_ok, encode_cp. intros Hd. split_cp d.
  destruct (Z.ltb_spec d 0x80).
  - cbn [append str_upper]. rewrite byte_val_of by lia. zcmp. reflexivity.
  - destruct (Z.ltb_spec d 0x800).
    + cbn [append str_upper]. rewrite !byte_val_of by lia. rewrite is_cont_of by lia. zcmp.
      replace ((192 + q1 - 192) * 64 + (128 + r1 - 128))%Z with d by lia. reflexivity.
    + destruct (Z.ltb_spec d 0x10000).
      * cbn [append str_upper]. rewrite !byte_val_of by lia. rewrite !is_cont_of by lia. zcmp.
        cbn [andb].
        replace (((224 + q2 - 224) * 64 + (128 + r2 - 128)) * 64 + (128 + r1 - 128))%Z
          with d by lia. reflexivity.
      * cbn [append str_upper]. rewrite !byte_val_of by lia. rewrite !is_cont_of by lia. zcmp.
        cbn [andb].
        replace ((((240 + q3 - 240) * 64 + (128 + r3 - 128)) * 64 + (128 + r2 - 128)) * 64
                 + (128 + r1 - 128))%Z with d by lia. reflexivity.
Qed.

Lemma str_upper_stray (a : ascii) (rest : string) :
  starts_seq a rest = false -> str_upper (String a rest) = String a (str_upper rest).
Proof.
  unfold starts_seq, lead_need. intros H. cbn [str_upper].
  destruct (byte_val a <? 0x80)%Z; [discriminate H|].
  destruct (byte_val a <? 0xC0)%Z; [reflexivity|].
  destruct (byte_val a <? 0xE0)%Z.
  { destruct rest as [|b1 r1]; [reflexivity|]. cbn [conts] in H.
    rewrite andb_true_r in H. rewrite H. reflexivity. }
  destruct (byte_val a <? 0xF0)%Z.
  { destruct rest as [|b1 [|b2 r2]]; try reflexivity. cbn [conts] in H.
    rewrite andb_true_r in H. rewrite H. reflexivity. }
  destruct (byte_val a <? 0xF8)%Z; [|reflexivity].
  destruct rest as [|b1 [|b2 [|b3 r3]]]; try reflexivity. cbn [conts] in H.
  rewrite andb_true_r, andb_assoc in H. rewrite H. reflexivity.
Qed.

Lemma str_upper_seq (a : ascii) (rest : string) :
  starts_seq a rest = true ->
  exists c r, cp_ok c /\ (String.length r < String.length (String a rest))%nat /\
    str_upper (String a rest) = utf8_encode (upper_cp c) ++ str_upper r.
Proof.
  unfold starts_seq, lead_need, cp_ok. intros H. cbn [str_upper].
  pose proof (byte_val_bound a).
  destruct (Z.ltb_spec (byte_val a) 0x80).
  { do 2 eexists. split; [|split; [|reflexivity]]; [lia|simpl; lia]. }
  destruct (Z.ltb_spec (byte_val a) 0xC0); [discriminate H|].
  destruct (Z.ltb_spec (byte_val a) 0xE0).
  { destruct rest as [|b1 r1]; [discriminate H|]. cbn [conts] in H.
    rewrite andb_true_r in H. rewrite H. apply is_cont_true in H.
    do 2 eexists. split; [|split; [|reflexivity]]; [lia|simpl; lia]. }
  destruct (Z.ltb_spec (byte_val a) 0xF0).
  { destruct rest as [|b1 [|b2 r2]]; cbn [conts] in H;
      rewrite ?andb_false_r, ?andb_true_r in H; try discriminate H. rewrite H. apply andb_true_iff in H as [Hc1 Hc2].
    apply is_cont_true in Hc1. apply is_cont_true in Hc2.
    do 2 eexists. split; [|split; [|reflexivity]]; [lia|simpl; lia]. }
  destruct (Z.ltb_spec (byte_val a) 0xF8); [|discriminate H].
  destruct rest as [|b1 [|b2 [|b3 r3]]]; cbn [conts] in H;
    rewrite ?andb_false_r, ?andb_true_r in H; try discriminate H.
  rewrite andb_assoc in H. rewrite H.
  apply andb_true_iff in H as [Hc12 Hc3]. apply andb_true_iff in Hc12 as [Hc1 Hc2].
  apply is_cont_true in Hc1. apply is_cont_true in Hc2. apply is_cont_true in Hc3.
  do 2 eexists. split; [|split; [|reflexivity]]; [lia|simpl; lia].
Qed.

Lemma str_upper_cont (b : ascii) (r : string) :
  is_cont b = true -> str_upper (String b r) = String b (str_upper r).
Proof.
  intros Hb. apply str_upper_stray. apply is_cont_true in Hb.
  unfold starts_seq, lead_need. zcmp. reflexivity.
Qed.

Lemma utf8_encode_head (l : list Z) (X : string) :
  l <> [] -> Forall cp_ok l ->
  exists b s', utf8_encode l ++ X = String b s' /\ is_cont b = false.
Proof.
  destruct l as [|d l]; [contradiction|]. intros _ Hl. inversion Hl as [|? ? Hd _]; subst.
  destruct (encode_cp_head d Hd) as [b [s' [E Hb]]].
  exists b, ((s' ++ utf8_encode l) ++ X). split; [|exact Hb].
  simpl. rewrite E. reflexivity.
Qed.

Lemma str_upper_noncont (b : ascii) (r : string) :
  is_cont b = false -> exists b' r', str_upper (String b r) = String b' r' /\ is_cont b' = false.
Proof.
  intros Hb. destruct (starts_seq b r) eqn:E.
  - destruct (str_upper_seq b r E) as [c [r1 [Hc [_ ->]]]].
    destruct (upper_cp_range c Hc) as [Hne Hall].
    exact (utf8_encode_head _ _ Hne Hall).
  - rewrite (str_upper_stray b r E). eauto.
Qed.

Lemma conts_upper (k : nat) (s : string) : conts k (str_upper s) = conts k s.
Proof.
  revert s. induction k as [|k IH]; intros s; [reflexivity|].
  destruct s as [|b r]; [reflexivity|].
  destruct (is_cont b) eqn:Hb.
  - rewrite (str_upper_cont b r Hb). cbn [conts]. rewrite Hb, IH. reflexivity.
  - destruct (str_upper_noncont b r Hb) as [b' [r' [-> Hb']]].
    cbn [conts]. rewrite Hb, Hb'. reflexivity.
Qed.

Lemma str_upper_app_encode (l : list Z) (X : string) :
  Forall cp_ok l -> str_upper (utf8_encode l ++ X) = utf8_encode (flat_map upper_cp l) ++ str_upper X.
Proof.
  induction l as [|d l IH]; intros Hl; [reflexivity|].
  inversion Hl as [|? ? Hd Hl']; subst.
  cbn [utf8_encode flat_map]. rewrite str_app_assoc, str_upper_encode_cp by exact Hd.
  rewrite IH by exact Hl'. rewrite utf8_encode_app, str_app_assoc. reflexivity.
Qed.

(** [str.upper] is idempotent. *)
Lemma str_upper_idem (s : string) : str_upper (str_upper s) = str_upper s.
Proof.
  remember (String.length s) as n eqn:Hn. revert s Hn.
  induction n as [n IH] using (well_founded_induction lt_wf). intros s Hn.
  destruct s as [|a rest]; [reflexivity|].
  destruct (starts_seq a rest) eqn:E.
  - destruct (str_upper_seq a rest E) as [c [r [Hc [Hlen ->]]]].
    destruct (upper_cp_range c Hc) as [_ Hall].
    rewrite (str_upper_app_encode _ _ Hall), upper_cp_idem.
    rewrite (IH (String.length r)) by (subst; auto). reflexivity.
  - rewrite (str_upper_stray a rest E).
    rewrite str_upper_stray.
    + rewrite (IH (String.length rest)) by (subst; simpl; lia). reflexivity.
    + unfold starts_seq in *. destruct (lead_need a); [|reflexivity].
      rewrite conts_upper. exact E.
Qed.

Lemma classify_status_string (kvs dkvs : list (string * json)) (s : string) :
  assoc_lookup "data" kvs = Some (JObj dkvs) ->
  assoc_lookup "status" dkvs = Some (JStr s) ->
  classify_response (JObj kvs) =
    if in_strs (str_upper s) completed_statuses then Ok (Some (JObj kvs))
    else if in_strs (str_upper s) failed_statuses then
      Raise (HTTPException 500 ("Image upscaling failed: " ++
        py_str (match assoc_lookup "error" dkvs with Some e => e | None => JStr "Unknown error" end)))
    else Ok None.
Proof.
  intros Hd Hs. unfold classify_response, py_contains, py_getitem.
  rewrite Hd. cbn -[in_strs completed_statuses failed_statuses].
  rewrite Hs. cbn -[in_strs completed_statuses failed_statuses].
  destruct (in_strs (str_upper s) completed_statuses); [reflexivity|].
  destruct (in_strs (str_upper s) failed_statuses); [|reflexivity].
  destruct (assoc_lookup "error" dkvs); reflexivity.
Qed.

(** C5: the classification of a status string does not change when the
    string is uppercased; "processed", "PROCESSED" and "Processed" all
    complete the loop, and FAILED/ERROR in any casing fail it with the
    "error" field or "Unknown error" as the reason. *)
Theorem classification_case_insensitive (kvs dkvs : list (string * json)) (s : string) :
  assoc_lookup "data" kvs = Some (JObj dkvs) ->
  assoc_lookup "status" dkvs = Some (JStr s) ->
  outcome_shape (classify_response (JObj kvs)) =
  outcome_shape (classify_response
    (JObj (assoc_set "data" (JObj (assoc_set "status" (JStr (str_upper s)) dkvs)) kvs)))
  /\ (In (str_upper s) failed_statuses ->
      poll_iteration (Ok (JObj kvs)) =
      IRaise (HTTPException 500 ("Image upscaling failed: " ++
        py_str (match assoc_lookup "error" dkvs with Some e => e | None => JStr "Unknown error" end))))
  /\ (forall variant, In variant ["processed"; "PROCESSED"; "Processed"] ->
      exists r, poll_iteration (get_task_status
        (RemoteBody (JObj [("data", JObj [("status", JStr variant)])]))) = IReturn r).
Proof.
  intros Hd Hs. split; [|split].
  - rewrite (classify_status_string kvs dkvs s Hd Hs).
    rewrite (classify_status_string _ (assoc_set "status" (JStr (str_upper s)) dkvs) (str_upper s)).
    + rewrite str_upper_idem, assoc_lookup_set_neq by discriminate.
      destruct (in_strs (str_upper s) completed_statuses); [reflexivity|].
      destruct (in_strs (str_upper s) failed_statuses); reflexivity.
    + apply assoc_lookup_set_eq.
    + apply assoc_lookup_set_eq.
  - intros Hf. apply in_strs_In in Hf.
    unfold poll_iteration. simpl bind.
    rewrite (classify_status_string kvs dkvs s Hd Hs), Hf.
    destruct (in_strs (str_upper s) completed_statuses) eqn:Hc.
    + exfalso. apply in_strs_In in Hc. apply in_strs_In in Hf.
      simpl in Hc, Hf. intuition congruence.
    + reflexivity.
  - intros v Hv. simpl in Hv. intuition (subst; eexists; reflexivity).
Qed.

Lemma classification_case_insensitive_witness :
  let dkvs := [("status", JStr "Error"); ("error", JStr "bad image")] in
  assoc_lookup "data" [("data", JObj dkvs)] = Some (JObj dkvs) /\
  assoc_lookup "status" dkvs = Some (JStr "Error") /\
  poll_iteration (Ok (JObj [("data", JObj dkvs)])) =
    IRaise (HTTPException 500 "Image upscaling failed: bad image").
Proof.
  intros dkvs. split; [reflexivity|]. split; [reflexivity|].
  exact (proj1 (proj2 (classification_case_insensitive [("data", JObj dkvs)] dkvs "Error"
                         eq_refl eq_refl)) (or_intror (or_introl eq_refl))).
Defined.

(** C7 (counterexample): a response whose "data" is [null] makes
    [get_task_status] raise an HTTP 500, which ends the loop. *)
Lemma normalize_data_null_raises :
  get_task_status (RemoteBody (JObj [("data", JNull)])) =
    Raise (HTTPException 500 "Error processing task status: 'NoneType' object has no attribute 'get'")
  /\ poll_iteration (get_task_status (RemoteBody (JObj [("data", JNull)]))) =
    IRaise (HTTPException 500 "Error processing task status: 'NoneType' object has no attribute 'get'").
Proof. split; reflexivity. Qed.

(** C7 (amended): for a response object whose "data" is absent or an
    object (status absent or of any type, file entries of any shape),
    [get_task_status] does not raise and the iteration ends in exactly one
    of: returning the response (Completed), raising the remote failure
    (Failed), or going on polling (InProgress); a response object whose
    "data" is present but not an object makes [get_task_status] raise an
    HTTP 500. *)
Theorem normalize_total_on_objects (kvs : list (string * json)) :
  ((assoc_lookup "data" kvs = None \/ exists dkvs, assoc_lookup "data" kvs = Some (JObj dkvs)) ->
   exists r, get_task_status (RemoteBody (JObj kvs)) = Ok r /\
     (poll_iteration (Ok r) = IReturn r \/
      poll_iteration (Ok r) = IContinue \/
      (exists reason, poll_iteration (Ok r) =
         IRaise (HTTPException 500 ("Image upscaling failed: " ++ reason))))) /\
  (forall d, assoc_lookup "data" kvs = Some d -> (forall dkvs, d <> JObj dkvs) ->
   exists detail, get_task_status (RemoteBody (JObj kvs)) = Raise (HTTPException 500 detail)).
Proof.
  split.
  - intros [Hd|[dkvs Hd]].
    + exists (JObj kvs). split.
      * exact (get_task_status_no_data kvs Hd).
      * right; left. unfold poll_iteration, classify_response, py_contains. simpl.
        rewrite Hd. reflexivity.
    + rewrite (get_task_status_data_obj kvs dkvs Hd). eexists. split; [reflexivity|].
      unfold poll_iteration, classify_response, py_contains, py_getitem.
      cbn -[in_strs completed_statuses failed_statuses assoc_set str_upper].
      rewrite !assoc_lookup_set_neq by discriminate. rewrite Hd.
      cbn -[in_strs completed_statuses failed_statuses str_upper].
      destruct (assoc_lookup "status" dkvs) as [v|];
        cbn -[in_strs completed_statuses failed_statuses str_upper].
      * destruct v; cbn -[in_strs completed_statuses failed_statuses str_upper];
          try (right; left; reflexivity).
        destruct (in_strs (str_upper s) completed_statuses); [left; reflexivity|].
        destruct (in_strs (str_upper s) failed_statuses); [|right; left; reflexivity].
        right; right. destruct (assoc_lookup "error" dkvs); eexists; reflexivity.
      * right; left. reflexivity.
  - intros d Hd Hnot. unfold get_task_status, get_task_status_body, py_contains, py_getitem.
    rewrite Hd. destruct d; try (eexists; reflexivity).
    exfalso. eapply Hnot. reflexivity.
Qed.

Lemma normalize_total_on_objects_witness :
  (exists r, get_task_status (RemoteBody (JObj [("data", JObj [("status", JNum 7)])])) = Ok r /\
     (poll_iteration (Ok r) = IReturn r \/
      poll_iteration (Ok r) = IContinue \/
      (exists reason, poll_iteration (Ok r) =
         IRaise (HTTPException 500 ("Image upscaling failed: " ++ reason))))) /\
  (exists detail, get_task_status (RemoteBody (JObj [("data", JStr "t1")])) =
                  Raise (HTTPException 500 detail)).
Proof.
  split.
  - apply (proj1 (normalize_total_on_objects [("data", JObj [("status", JNum 7)])])).
    right. eexists. reflexivity.
  - apply (proj2 (normalize_total_on_objects [("data", JStr "t1")]) (JStr "t1")).
    + reflexivity.
    + intros dkvs. discriminate.
Defined.

(** ** Unknown statuses keep the loop polling *)

Lemma poll_loop_continue (env : Env) (tid : json) (mw : Z) (fuel : nat) (st : PollState) :
  poll_iteration (get_task_status (env_status env (poll_index st) (status_request tid))) = IContinue ->
  (now st + env_cost env (poll_index st) <= mw * 1000)%Z ->
  exists st', poll_index st' = S (poll_index st) /\
    now st' = (now st + env_cost env (poll_index st) + current_interval (poll_index st))%Z /\
    poll_loop env tid mw (S fuel) st =
      (fst (poll_loop env tid mw fuel st'),
       EGetTaskStatus (status_request tid) :: ESleep (current_interval (poll_index st))
         :: snd (poll_loop env tid mw fuel st')).
Proof.
  intros Hi Ht. cbn [poll_loop]. rewrite Hi.
  destruct (Z.ltb_spec (mw * 1000) (now st + env_cost env (poll_index st))); [lia|].
  match goal with |- context [poll_loop env tid mw fuel ?s] => exists s end.
  split; [reflexivity|]. split; [reflexivity|].
  match goal with |- (let (_, _) := ?p in _) = _ => destruct p end. reflexivity.
Qed.

Lemma classify_status_value (kvs dkvs : list (string * json)) (s : string) :
  assoc_lookup "data" kvs = Some (JObj dkvs) ->
  match assoc_lookup "status" dkvs with Some v => v | None => JStr "" end = JStr s ->
  ~ In (str_upper s) completed_statuses -> ~ In (str_upper s) failed_statuses ->
  classify_response (JObj kvs) = Ok None.
Proof.
  intros Hd Hs Hc Hf. unfold classify_response, py_contains, py_getitem.
  rewrite Hd. cbn -[in_strs completed_statuses failed_statuses].
  assert (Hget : py_dict_get (JObj dkvs) "status" (JStr "") = Ok (JStr s)).
  { unfold py_dict_get. destruct (assoc_lookup "status" dkvs); rewrite Hs; reflexivity. }
  unfold py_dict_get in Hget. rewrite Hget. cbn -[in_strs completed_statuses failed_statuses].
  destruct (in_strs (str_upper s) completed_statuses) eqn:E1;
    [apply in_strs_In in E1; contradiction|].
  destruct (in_strs (str_upper s) failed_statuses) eqn:E2;
    [apply in_strs_In in E2; contradiction|].
  reflexivity.
Qed.

(** C8: a status response without a result object, or whose status
    (the empty string when absent), uppercased, is neither a completion
    nor a failure status, is classified as in progress: the iteration
    falls through, and unless the deadline has passed the loop sleeps and
    checks again. *)
Theorem unknown_status_keeps_polling (kvs : list (string * json)) :
  (assoc_lookup "data" kvs = None \/
   exists dkvs s, assoc_lookup "data" kvs = Some (JObj dkvs) /\
     match assoc_lookup "status" dkvs with Some v => v | None => JStr "" end = JStr s /\
     ~ In (str_upper s) completed_statuses /\ ~ In (str_upper s) failed_statuses) ->
  poll_iteration (get_task_status (RemoteBody (JObj kvs))) = IContinue /\
  forall env tid mw fuel st,
    env_status env (poll_index st) (status_request tid) = RemoteBody (JObj kvs) ->
    (now st + env_cost env (poll_index st) <= mw * 1000)%Z ->
    exists st', poll_index st' = S (poll_index st) /\
      poll_loop env tid mw (S fuel) st =
        (fst (poll_loop env tid mw fuel st'),
         EGetTaskStatus (status_request tid) :: ESleep (current_interval (poll_index st))
           :: snd (poll_loop env tid mw fuel st')).
Proof.
  intros H.
  assert (Hi : poll_iteration (get_task_status (RemoteBody (JObj kvs))) = IContinue).
  { destruct H as [Hd|[dkvs [s [Hd [Hs [Hc Hf]]]]]].
    - rewrite (get_task_status_no_data kvs Hd).
      unfold poll_iteration, classify_response, py_contains. simpl. rewrite Hd. reflexivity.
    - rewrite (get_task_status_data_obj kvs dkvs Hd). unfold poll_iteration. simpl bind.
      erewrite classify_status_value; [reflexivity| | exact Hs | exact Hc | exact Hf].
      rewrite !assoc_lookup_set_neq by discriminate. exact Hd. }
  split; [exact Hi|].
  intros env tid mw fuel st He Ht. rewrite <- He in Hi.
  destruct (poll_loop_continue env tid mw fuel st Hi Ht) as [st' [H1 [_ H3]]].
  eauto.
Qed.

Definition pending_env (status : string) : Env :=
  {| env_status := fun _ _ => RemoteBody (JObj [("data", JObj [("status", JStr status)])]);
     env_cost := fun _ => 0%Z |}.

Lemma unknown_status_keeps_polling_witness :
  exists st', poll_index st' = 1%nat /\
    poll_loop (pending_env "Rendering") (JStr "t1") 1200%Z (S 3) init_state =
      (fst (poll_loop (pending_env "Rendering") (JStr "t1") 1200%Z 3 st'),
       EGetTaskStatus (status_request (JStr "t1")) :: ESleep 500%Z
         :: snd (poll_loop (pending_env "Rendering") (JStr "t1") 1200%Z 3 st')).
Proof.
  refine (proj2 (unknown_status_keeps_polling [("data", JObj [("status", JStr "Rendering")])] _)
            (pending_env "Rendering") (JStr "t1") 1200%Z 3 init_state eq_refl _).
  - right. exists [("status", JStr "Rendering")], "Rendering".
    split; [reflexivity|]. split; [reflexivity|].
    split; simpl; intuition discriminate.
  - simpl. lia.
Defined.

(** ** The backoff schedule *)

(** The events of [n] in-progress iterations starting at iteration [k]:
    a status check followed by the sleep of the schedule. *)
Definition schedule_trace (req : json) (k n : nat) : list event :=
  concat (map (fun i => [EGetTaskStatus req; ESleep (backoff_spec i)]) (seq k n)).

Fixpoint sleeps (evs : list event) : list Z :=
  match evs with
  | [] => []
  | ESleep ms :: rest => ms :: sleeps rest
  | _ :: rest => sleeps rest
  end.

Lemma current_interval_spec (i : nat) : current_interval i = backoff_spec i.
Proof.
  do 9 (destruct i as [|i]; [reflexivity|]).
  unfold current_interval, backoff_spec. simpl. destruct i; reflexivity.
Qed.

Lemma current_interval_ge (i : nat) : (500 <= current_interval i)%Z.
Proof.
  rewrite current_interval_spec.
  do 9 (destruct i as [|i]; [unfold backoff_spec; simpl; lia|]).
  unfold backoff_spec. simpl. destruct i; simpl; lia.
Qed.

Lemma schedule_trace_S (req : json) (k n : nat) :
  schedule_trace req k (S n) =
  EGetTaskStatus req :: ESleep (backoff_spec k) :: schedule_trace req (S k) n.
Proof. reflexivity. Qed.

Lemma poll_loop_shape (env : Env) (tid : json) (mw : Z) (fuel : nat) (st : PollState) :
  exists n,
    snd (poll_loop env tid mw fuel st) = schedule_trace (status_request tid) (poll_index st) n \/
    snd (poll_loop env tid mw fuel st) =
      (schedule_trace (status_request tid) (poll_index st) n ++
       [EGetTaskStatus (status_request tid)])%list.
Proof.
  revert st. induction fuel as [|fuel IH]; intros st.
  - exists 0%nat. left. reflexivity.
  - cbn [poll_loop].
    destruct (poll_iteration _); [exists 0%nat; right; reflexivity
                                 |exists 0%nat; right; reflexivity|].
    destruct (_ <? _)%Z; [exists 0%nat; right; reflexivity|].
    match goal with |- context [poll_loop env tid mw fuel ?s] =>
      destruct (IH s) as [n Hn]; destruct (poll_loop env tid mw fuel s) as [r tr] end.
    exists (S n). rewrite schedule_trace_S, <- current_interval_spec.
    simpl in Hn |- *. destruct Hn as [->| ->]; [left|right]; reflexivity.
Qed.

(** C3: every run of the loop starts with a status check and alternates
    checks with sleeps, the [i]-th sleep lasting the [i]-th value of
    [0.5, 0.5, 1, 1, 2, 2, 3, 5, 10] seconds, then 10 seconds for ever;
    12 in-progress iterations sleep 0.5, 0.5, 1, 1, 2, 2, 3, 5, 10, 10,
    10 and 10 seconds. *)
Theorem backoff_schedule (env : Env) (tid : json) (mw : Z) (fuel : nat) :
  (exists n,
    snd (poll_loop env tid mw fuel init_state) = schedule_trace (status_request tid) 0 n \/
    snd (poll_loop env tid mw fuel init_state) =
      (schedule_trace (status_request tid) 0 n ++ [EGetTaskStatus (status_request tid)])%list)
  /\ sleeps (snd (poll_loop (pending_env "PENDING") tid 1200 12 init_state)) =
     [500; 500; 1000; 1000; 2000; 2000; 3000; 5000; 10000; 10000; 10000; 10000]%Z.
Proof.
  split.
  - exact (poll_loop_shape env tid mw fuel init_state).
  - vm_compute. reflexivity.
Qed.

(** ** The deadline *)

Lemma poll_loop_times_out (env : Env) (tid : json) (mw : Z) :
  (forall i, poll_iteration (get_task_status (env_status env i (status_request tid))) = IContinue) ->
  (forall i, (0 <= env_cost env i)%Z) ->
  forall fuel st, (mw * 1000 < now st + 500 * Z.of_nat fuel)%Z ->
  exists n,
    poll_loop env tid mw (S fuel) st =
      (Some (Raise (HTTPException 408
               (timeout_detail (check_elapsed env (poll_index st) (now st) n) tid))),
       (schedule_trace (status_request tid) (poll_index st) n
        ++ [EGetTaskStatus (status_request tid)])%list) /\
    (mw * 1000 < check_elapsed env (poll_index st) (now st) n)%Z /\
    (forall i, (i < n)%nat -> (check_elapsed env (poll_index st) (now st) i <= mw * 1000)%Z).
Proof.
  intros Hall Hcost fuel. induction fuel as [|fuel IH]; intros st Hlt.
  - cbn [poll_loop]. rewrite Hall. specialize (Hcost (poll_index st)).
    destruct (Z.ltb_spec (mw * 1000) (now st + env_cost env (poll_index st))); [|lia].
    exists 0%nat. split; [reflexivity|]. split; [simpl; lia|intros i Hi; lia].
  - destruct (Z.ltb_spec (mw * 1000) (now st + env_cost env (poll_index st))) as [Hto|Hno].
    + cbn [poll_loop]. rewrite Hall.
      destruct (Z.ltb_spec (mw * 1000) (now st + env_cost env (poll_index st))); [|lia].
      exists 0%nat. split; [reflexivity|]. split; [simpl; lia|intros i Hi; lia].
    + destruct (poll_loop_continue env tid mw (S fuel) st (Hall _) Hno) as [st' [Hk [Hn ->]]].
      pose proof (current_interval_ge (poll_index st)). specialize (Hcost (poll_index st)).
      destruct (IH st') as [n [Heq [Hgt Hle]]]; [lia|].
      rewrite Hk, Hn, current_interval_spec in Heq, Hgt, Hle.
      exists (S n). rewrite Heq. cbn [fst snd check_elapsed].
      rewrite schedule_trace_S, current_interval_spec.
      split; [reflexivity|]. split; [exact Hgt|].
      intros [|i] Hi; [simpl; lia|]. apply Hle. lia.
Qed.

(** C6: when no status check ever ends the loop, the loop stops with an
    HTTP 408 whose detail names the task id at the first iteration whose
    status check ends after [max_wait_time]: every earlier check ended
    within the deadline and was followed by its sleep, and the last event
    is the check that passed the deadline, with no sleep after it. *)
Theorem polling_timeout (env : Env) (tid : json) (max_wait_time : Z) (fuel : nat) :
  (forall i, poll_iteration (get_task_status (env_status env i (status_request tid))) = IContinue) ->
  (forall i, (0 <= env_cost env i)%Z) ->
  (1000 * max_wait_time < 500 * Z.of_nat fuel)%Z ->
  exists n,
    poll_loop env tid max_wait_time (S fuel) init_state =
      (Some (Raise (HTTPException 408 (timeout_detail (check_elapsed env 0 0 n) tid))),
       (schedule_trace (status_request tid) 0 n ++ [EGetTaskStatus (status_request tid)])%list) /\
    (max_wait_time * 1000 < check_elapsed env 0 0 n)%Z /\
    (forall i, (i < n)%nat -> (check_elapsed env 0 0 i <= max_wait_time * 1000)%Z).
Proof.
  intros Hall Hcost Hf.
  apply (poll_loop_times_out env tid max_wait_time Hall Hcost fuel init_state).
  change (now init_state) with 0%Z. lia.
Qed.

Lemma polling_timeout_witness :
  exists n,
    poll_loop (pending_env "PENDING") (JStr "t1") 5 (S 11) init_state =
      (Some (Raise (HTTPException 408
               (timeout_detail (check_elapsed (pending_env "PENDING") 0 0 n) (JStr "t1")))),
       (schedule_trace (status_request (JStr "t1")) 0 n
        ++ [EGetTaskStatus (status_request (JStr "t1"))])%list) /\
    (5 * 1000 < check_elapsed (pending_env "PENDING") 0 0 n)%Z /\
    (forall i, (i < n)%nat -> (check_elapsed (pending_env "PENDING") 0 0 i <= 5 * 1000)%Z).
Proof.
  apply polling_timeout.
  - intros i. vm_compute. reflexivity.
  - intros i. simpl. lia.
  - simpl. lia.
Defined.

(** ** Starting the task *)

Ltac case_matches :=
  repeat match goal with
         | |- context [match ?x with _ => _ end] => destruct x eqn:?
         | H : context [match ?x with _ => _ end] |- _ => destruct x eqn:?
         | H : Ok _ = Ok _ |- _ => injection H as H
         | H : Raise _ = Raise _ |- _ => injection H as H
         | H : Ok _ = Raise _ |- _ => discriminate H
         | H : Raise _ = Ok _ |- _ => discriminate H
         end; subst.

Lemma extract_task_id_raise (j : json) (e : exn) :
  extract_task_id j = Raise e -> http_status e = 500%Z.
Proof.
  unfold extract_task_id, bind, py_contains, py_getitem.
  intros H. case_matches; reflexivity.
Qed.

Lemma extract_task_id_ok (j v : json) :
  extract_task_id j = Ok v ->
  exists kvs dkvs, j = JObj kvs /\ assoc_lookup "data" kvs = Some (JObj dkvs) /\
                   assoc_lookup "taskId" dkvs = Some v.
Proof.
  unfold extract_task_id, bind, py_contains, py_getitem.
  intros H. case_matches; do 2 eexists; eauto.
Qed.

(** C9: when the start call raises, or its response has no
    [data.taskId], the synchronous upscale fails at once with a server
    error (500): the start-task POST is the only request made (it is not
    retried) and no status check follows. *)
Theorem start_failure_is_fatal (start_remote : remote_response) (env : Env)
    (files : list UploadFile) (request_params : UpscaleRequest)
    (max_wait_time : Z) (fuel : nat) :
  ((exists m, start_remote = RemoteError m) \/
   (exists j, start_remote = RemoteBody j /\
      ~ exists kvs dkvs v, j = JObj kvs /\ assoc_lookup "data" kvs = Some (JObj dkvs) /\
                         assoc_lookup "taskId" dkvs = Some v)) ->
  exists e,
    fst (upscale_images_sync start_remote env files request_params max_wait_time fuel)
      = Some (Raise e) /\
    snd (upscale_images_sync start_remote env files request_params max_wait_time fuel)
      = [EStartTask (files_data_of files) (start_payload request_params)] /\
    http_status e = 500%Z /\
    status_checks (snd (upscale_images_sync start_remote env files request_params
                          max_wait_time fuel)) = 0%nat.
Proof.
  intros [[m ->]|[j [-> Hno]]].
  - eexists. split; [reflexivity|]. split; [reflexivity|]. split; reflexivity.
  - unfold upscale_images_sync, upscale_images_service.
    destruct (extract_task_id j) as [v|e] eqn:E.
    + exfalso. apply Hno. destruct (extract_task_id_ok j v E) as [kvs [dkvs [H1 [H2 H3]]]].
      exists kvs, dkvs, v. auto.
    + exists e. split; [reflexivity|]. split; [reflexivity|].
      split; [exact (extract_task_id_raise j e E)|reflexivity].
Qed.

Definition default_params : UpscaleRequest :=
  {| model := "upscayl-standard-4x"; scale := "4"; saveImageAs := "jpg";
     enhanceFace := true; urls := None |}.

Lemma start_failure_is_fatal_witness :
  exists e,
    fst (upscale_images_sync (RemoteBody (JObj [("data", JStr "no taskId here")]))
           (pending_env "PENDING") [png_file] default_params 1200 10) = Some (Raise e) /\
    snd (upscale_images_sync (RemoteBody (JObj [("data", JStr "no taskId here")]))
           (pending_env "PENDING") [png_file] default_params 1200 10)
      = [EStartTask (files_data_of [png_file]) (start_payload default_params)] /\
    http_status e = 500%Z /\
    status_checks (snd (upscale_images_sync (RemoteBody (JObj [("data", JStr "no taskId here")]))
           (pending_env "PENDING") [png_file] default_params 1200 10)) = 0%nat.
Proof.
  apply start_failure_is_fatal. right. eexists. split; [reflexivity|].
  intros [kvs [dkvs [v [H1 [H2 H3]]]]]. injection H1 as <-. discriminate H2.
Defined.

(** ** A failing status call during polling *)

(** The remote is unreachable on the first status check and reports the
    task as processed afterwards. *)
Definition flaky_env : Env :=
  {| env_status := fun i _ =>
       if Nat.eqb i 0 then RemoteError "Connection refused"
       else RemoteBody (JObj [("data", JObj [("status", JStr "PROCESSED")])]);
     env_cost := fun _ => 100%Z |}.

(** C1: a transport error on the first status check is not absorbed: it
    reaches the loop as the HTTP 500 of [get_task_status], which the
    [except HTTPException: raise] clause re-raises, so the synchronous
    upscale fails after one check instead of polling again. *)
Theorem status_error_aborts_loop :
  upscale_images_sync (RemoteBody (JObj [("data", JObj [("taskId", JStr "t1")])]))
    flaky_env [png_file] default_params 1200 10 =
  (Some (Raise (HTTPException 500 "Error fetching task status: Connection refused")),
   [EStartTask (files_data_of [png_file]) (start_payload default_params);
    EGetTaskStatus (status_request (JStr "t1"))]).
Proof. vm_compute. reflexivity. Qed.

(** * Further properties of the code *)

(** ** The upload route *)

Lemma first_invalid_app (pre post : list UploadFile) (f : UploadFile) :
  (forall g, In g pre -> type_allowed (content_type g) = true) ->
  type_allowed (content_type f) = false ->
  first_invalid (pre ++ f :: post) = Some f.
Proof.
  induction pre as [|g pre IH]; intros Hpre Hf; simpl.
  - rewrite Hf. reflexivity.
  - rewrite (Hpre g (or_introl eq_refl)). apply IH; [|exact Hf].
    intros h Hh. apply Hpre. right. exact Hh.
Qed.

Lemma first_invalid_none (files : list UploadFile) :
  (forall g, In g files -> type_allowed (content_type g) = true) ->
  first_invalid files = None.
Proof.
  induction files as [|g files IH]; intros H; simpl; [reflexivity|].
  rewrite (H g (or_introl eq_refl)). apply IH. intros h Hh. apply H. right. exact Hh.
Qed.

(** The route's error detail: more than 3 files is reported as such
    whatever their types; with at most 3 files the detail names the
    content type of the first file, in upload order, whose type is not
    allowed. *)
Theorem route_error_detail (start_remote : remote_response) (files : list UploadFile)
    (model0 scale0 saveImageAs0 : string) (enhanceFace0 : bool) :
  ((3 < length files)%nat ->
   route_upscale_images start_remote files model0 scale0 saveImageAs0 enhanceFace0 =
     (Raise (HTTPException 400 "Maximum 3 files allowed per request"), [])) /\
  (forall pre f post, files = (pre ++ f :: post)%list -> (length files <= 3)%nat ->
   (forall g, In g pre -> type_allowed (content_type g) = true) ->
   type_allowed (content_type f) = false ->
   route_upscale_images start_remote files model0 scale0 saveImageAs0 enhanceFace0 =
     (Raise (HTTPException 400
        ("Invalid file type: " ++ opt_str (content_type f)
         ++ ". Allowed: image/jpeg, image/jpg, image/png, image/webp")), [])).
Proof.
  split.
  - intros Hlen. unfold route_upscale_images.
    destruct (Nat.ltb_spec 3 (length files)); [reflexivity|lia].
  - intros pre f post -> Hlen Hpre Hf. unfold route_upscale_images.
    destruct (Nat.ltb_spec 3 (length (pre ++ f :: post))); [lia|].
    rewrite (first_invalid_app pre post f Hpre Hf). reflexivity.
Qed.

Lemma route_error_detail_witness :
  route_upscale_images (RemoteBody JNull) [png_file; png_file; png_file; png_file]
    "m" "4" "jpg" true =
    (Raise (HTTPException 400 "Maximum 3 files allowed per request"), []) /\
  route_upscale_images (RemoteBody JNull) [png_file; gif_file] "m" "4" "jpg" true =
    (Raise (HTTPException 400
       "Invalid file type: image/gif. Allowed: image/jpeg, image/jpg, image/png, image/webp"), []).
Proof.
  split.
  - apply (proj1 (route_error_detail (RemoteBody JNull) [png_file; png_file; png_file; png_file]
                    "m" "4" "jpg" true)).
    simpl. lia.
  - apply (proj2 (route_error_detail (RemoteBody JNull) [png_file; gif_file] "m" "4" "jpg" true)
             [png_file] gif_file []).
    + reflexivity.
    + simpl. lia.
    + intros g [<-|[]]. reflexivity.
    + reflexivity.
Defined.

(** A valid upload (at most 3 files, all of an allowed type) is forwarded
    as exactly one start-task POST carrying every file and the four form
    fields, with no "urls" field, and the route answers what the remote
    answered (an HTTP 500 on a transport error). *)
Theorem route_forwards_valid_upload (start_remote : remote_response)
    (files : list UploadFile) (model0 scale0 saveImageAs0 : string) (enhanceFace0 : bool) :
  (length files <= 3)%nat ->
  (forall g, In g files -> type_allowed (content_type g) = true) ->
  route_upscale_images start_remote files model0 scale0 saveImageAs0 enhanceFace0 =
    (match start_remote with
     | RemoteError m => Raise (HTTPException 500 ("Error communicating with Upscayl API: " ++ m))
     | RemoteBody j => Ok j
     end,
     [EStartTask (files_data_of files)
        [("model", model0); ("scale", scale0); ("saveImageAs", saveImageAs0);
         ("enhanceFace", if enhanceFace0 then "true" else "false")]]).
Proof.
  intros Hlen Hall. unfold route_upscale_images.
  destruct (Nat.ltb_spec 3 (length files)); [lia|].
  rewrite (first_invalid_none files Hall).
  unfold upscale_images_service, start_payload. simpl.
  destruct start_remote; reflexivity.
Qed.

Lemma route_forwards_valid_upload_witness :
  route_upscale_images (RemoteBody (JObj [("data", JObj [("taskId", JStr "t1")])]))
    [png_file] "m" "4" "png" false =
    (Ok (JObj [("data", JObj [("taskId", JStr "t1")])]),
     [EStartTask (files_data_of [png_file])
        [("model", "m"); ("scale", "4"); ("saveImageAs", "png"); ("enhanceFace", "false")]]).
Proof.
  apply route_forwards_valid_upload.
  - simpl. lia.
  - intros g [<-|[]]. reflexivity.
Defined.

(** ** The service calls *)

Lemma get_task_status_raise_500 (remote : remote_response) (e : exn) :
  get_task_status remote = Raise e -> exists d, e = HTTPException 500 d.
Proof.
  destruct remote as [m|result]; simpl; intros H.
  - injection H as <-. eauto.
  - destruct (get_task_status_body result); [discriminate|]. injection H as <-. eauto.
Qed.

Lemma assoc_set_present (k : string) (v : json) (kvs : list (string * json)) :
  assoc_lookup k kvs = Some v -> assoc_set k v kvs = kvs.
Proof.
  induction kvs as [|[k' v'] kvs IH]; simpl; [discriminate|].
  destruct (String.eqb_spec k k') as [->|]; intros H.
  - injection H as ->. reflexivity.
  - rewrite IH by exact H. reflexivity.
Qed.

(** [get_task_status] is idempotent on response objects whose "data" is
    absent or an object: post-processing its own output again gives the
    same response. *)
Theorem get_task_status_idempotent (kvs : list (string * json)) (r : json) :
  (assoc_lookup "data" kvs = None \/ exists dkvs, assoc_lookup "data" kvs = Some (JObj dkvs)) ->
  get_task_status (RemoteBody (JObj kvs)) = Ok r ->
  get_task_status (RemoteBody r) = Ok r.
Proof.
  intros [Hd|[dkvs Hd]] Hr.
  - rewrite (get_task_status_no_data kvs Hd) in Hr. injection Hr as <-.
    exact (get_task_status_no_data kvs Hd).
  - rewrite (get_task_status_data_obj kvs dkvs Hd) in Hr. injection Hr as <-.
    rewrite (get_task_status_data_obj _ dkvs).
    + f_equal. f_equal.
      rewrite (assoc_set_present "image_urls" _ (assoc_set "task_status" _ _)).
      * apply assoc_set_present. apply assoc_lookup_set_eq.
      * rewrite assoc_lookup_set_neq by discriminate. apply assoc_lookup_set_eq.
    + rewrite !assoc_lookup_set_neq by discriminate. exact Hd.
Qed.

Lemma get_task_status_idempotent_witness :
  get_task_status (RemoteBody (JObj [("data", JObj [("status", JStr "PROCESSED");
      ("files", JArr [JObj [("path", JStr "out/1.png")]])])])) =
    Ok (JObj [("data", JObj [("status", JStr "PROCESSED");
      ("files", JArr [JObj [("path", JStr "out/1.png")]])]);
      ("image_urls", JArr [JStr "https://upscayl.org/out/1.png"]);
      ("task_status", JStr "PROCESSED")]) /\
  get_task_status (RemoteBody (JObj [("data", JObj [("status", JStr "PROCESSED");
      ("files", JArr [JObj [("path", JStr "out/1.png")]])]);
      ("image_urls", JArr [JStr "https://upscayl.org/out/1.png"]);
      ("task_status", JStr "PROCESSED")])) =
    Ok (JObj [("data", JObj [("status", JStr "PROCESSED");
      ("files", JArr [JObj [("path", JStr "out/1.png")]])]);
      ("image_urls", JArr [JStr "https://upscayl.org/out/1.png"]);
      ("task_status", JStr "PROCESSED")]).
Proof.
  assert (H : get_task_status (RemoteBody (JObj [("data", JObj [("status", JStr "PROCESSED");
      ("files", JArr [JObj [("path", JStr "out/1.png")]])])])) =
    Ok (JObj [("data", JObj [("status", JStr "PROCESSED");
      ("files", JArr [JObj [("path", JStr "out/1.png")]])]);
      ("image_urls", JArr [JStr "https://upscayl.org/out/1.png"]);
      ("task_status", JStr "PROCESSED")])) by reflexivity.
  split; [exact H|].
  refine (get_task_status_idempotent _ _ _ H).
  right. eexists. reflexivity.
Defined.

Lemma derived_urls_shape (entries : list json) (u : json) :
  In u (derived_urls entries) ->
  (exists kvs, In (JObj kvs) entries /\ assoc_lookup "url" kvs = Some u) \/
  (exists kvs p, In (JObj kvs) entries /\ assoc_lookup "url" kvs = None /\
                 assoc_lookup "path" kvs = Some p /\ u = JStr (base_url ++ "/" ++ py_str p)).
Proof.
  induction entries as [|e rest IH]; [simpl; tauto|].
  assert (Hrest : In u (derived_urls rest) ->
    (exists kvs, In (JObj kvs) (e :: rest) /\ assoc_lookup "url" kvs = Some u) \/
    (exists kvs p, In (JObj kvs) (e :: rest) /\ assoc_lookup "url" kvs = None /\
                   assoc_lookup "path" kvs = Some p /\ u = JStr (base_url ++ "/" ++ py_str p))).
  { intros Hu. destruct (IH Hu) as [[kvs' [H1 H2]]|[kvs' [p [H1 H2]]]].
    - left. exists kvs'. split; [right; exact H1|exact H2].
    - right. exists kvs', p. split; [right; exact H1|exact H2]. }
  simpl. unfold entry_url.
  destruct e as [|b|z|s|xs|kvs]; try exact Hrest.
  destruct (assoc_lookup "url" kvs) as [v|] eqn:Eu.
  - intros [<-|Hu]; [|exact (Hrest Hu)].
    left. exists kvs. split; [left; reflexivity|exact Eu].
  - destruct (assoc_lookup "path" kvs) as [p|] eqn:Ep; [|exact Hrest].
    intros [<-|Hu]; [|exact (Hrest Hu)].
    right. exists kvs, p. split; [left; reflexivity|auto].
Qed.

Lemma derived_urls_length (entries : list json) :
  (length (derived_urls entries) <= length entries)%nat.
Proof.
  induction entries as [|e rest IH]; simpl; [lia|].
  destruct (entry_url e); simpl; lia.
Qed.

(** The URL loop of [get_task_status] yields at most one URL per file
    entry, and each URL is either the "url" value of an object entry or,
    for an object entry without "url", the string
    "https://upscayl.org/" followed by its "path". *)
Theorem collect_urls_provenance (entries : list json) :
  (length (collect_urls entries []) <= length entries)%nat /\
  forall u, In u (collect_urls entries []) ->
  (exists kvs, In (JObj kvs) entries /\ assoc_lookup "url" kvs = Some u) \/
  (exists kvs p, In (JObj kvs) entries /\ assoc_lookup "url" kvs = None /\
                 assoc_lookup "path" kvs = Some p /\
                 u = JStr ("https://upscayl.org/" ++ py_str p)).
Proof.
  rewrite collect_urls_app. simpl. split; [apply derived_urls_length|].
  intros u Hu. exact (derived_urls_shape entries u Hu).
Qed.

(** A status response whose result object has no "files" key, or whose
    "files" is not a list, gets an empty [image_urls]. *)
Theorem no_file_list_no_urls (kvs dkvs : list (string * json)) :
  assoc_lookup "data" kvs = Some (JObj dkvs) ->
  (forall entries, assoc_lookup "files" dkvs <> Some (JArr entries)) ->
  exists kvs', get_task_status (RemoteBody (JObj kvs)) = Ok (JObj kvs') /\
    assoc_lookup "image_urls" kvs' = Some (JArr []).
Proof.
  intros Hd Hf. rewrite (get_task_status_data_obj kvs dkvs Hd).
  eexists. split; [reflexivity|].
  rewrite assoc_lookup_set_neq by discriminate. rewrite assoc_lookup_set_eq.
  destruct (assoc_lookup "files" dkvs) as [[]|]; try reflexivity.
  exfalso. eapply Hf. reflexivity.
Qed.

Lemma no_file_list_no_urls_witness :
  exists kvs', get_task_status (RemoteBody (JObj [("data", JObj [("files", JStr "a.png")])]))
                 = Ok (JObj kvs') /\ assoc_lookup "image_urls" kvs' = Some (JArr []).
Proof.
  apply (no_file_list_no_urls _ [("files", JStr "a.png")]); [reflexivity|].
  intros entries. discriminate.
Defined.

(** A status value that is not a string (null, a number, a list, ...)
    does not stop the loop: [.upper()] raises, the [except Exception]
    clause logs it, and the iteration goes on to the deadline check. *)
Theorem non_string_status_keeps_polling (kvs dkvs : list (string * json)) (v : json) :
  assoc_lookup "data" kvs = Some (JObj dkvs) ->
  assoc_lookup "status" dkvs = Some v ->
  (forall s, v <> JStr s) ->
  poll_iteration (get_task_status (RemoteBody (JObj kvs))) = IContinue.
Proof.
  intros Hd Hs Hv. rewrite (get_task_status_data_obj kvs dkvs Hd).
  unfold poll_iteration, classify_response, py_contains, py_getitem.
  cbn -[in_strs completed_statuses failed_statuses assoc_set].
  rewrite !assoc_lookup_set_neq by discriminate. rewrite Hd. simpl. rewrite Hs.
  destruct v; try reflexivity. exfalso. eapply Hv. reflexivity.
Qed.

Lemma non_string_status_keeps_polling_witness :
  poll_iteration (get_task_status (RemoteBody (JObj [("data", JObj [("status", JNull)])])))
    = IContinue.
Proof.
  apply (non_string_status_keeps_polling _ [("status", JNull)] JNull); try reflexivity.
  intros s. discriminate.
Defined.

(** ** What the polling loop can end with *)

Definition completed_response (r : json) : Prop :=
  exists kvs dkvs s, r = JObj kvs /\ assoc_lookup "data" kvs = Some (JObj dkvs) /\
    match assoc_lookup "status" dkvs with Some v => v | None => JStr "" end = JStr s /\
    In (str_upper s) completed_statuses.

Lemma classify_some (sr r : json) :
  classify_response sr = Ok (Some r) -> r = sr /\ completed_response r.
Proof.
  unfold classify_response, bind, py_contains, py_getitem, py_dict_get, py_upper.
  intros H. case_matches; try discriminate.
  all: match goal with H : Some _ = Some _ |- _ => injection H as <- | _ => idtac end.
  all: split; [reflexivity|].
  all: unfold completed_response; do 3 eexists; split; [reflexivity|].
  all: split; [eassumption|].
  all: match goal with E : assoc_lookup "status" _ = _ |- _ => rewrite E | _ => idtac end.
  all: split; [reflexivity|apply in_strs_In; assumption].
Qed.

Lemma classify_raise_http (sr : json) (c : Z) (d : string) :
  classify_response sr = Raise (HTTPException c d) -> c = 500%Z.
Proof.
  unfold classify_response, bind, py_contains, py_getitem, py_dict_get, py_upper.
  intros H. case_matches; try discriminate; reflexivity.
Qed.

Lemma poll_loop_result (env : Env) (tid : json) (mw : Z) (fuel : nat) (st : PollState)
    (r : res json) :
  fst (poll_loop env tid mw fuel st) = Some r ->
  (exists resp, r = Ok resp /\ completed_response resp) \/
  (exists d, r = Raise (HTTPException 500 d)) \/
  (exists d, r = Raise (HTTPException 408 d)).
Proof.
  revert st. induction fuel as [|fuel IH]; intros st; cbn [poll_loop]; [discriminate|].
  unfold poll_iteration.
  destruct (get_task_status (env_status env (poll_index st) (status_request tid)))
    as [sr|e] eqn:Eg; simpl bind.
  - destruct (classify_response sr) as [[resp|]|[c d|cls m]] eqn:Ec.
    + intros H. injection H as <-. left. exists resp. split; [reflexivity|].
      exact (proj2 (classify_some sr resp Ec)).
    + destruct (_ <? _)%Z.
      * intros H. injection H as <-. right; right. eauto.
      * match goal with |- context [poll_loop env tid mw fuel ?s] =>
          specialize (IH s); destruct (poll_loop env tid mw fuel s) end.
        exact IH.
    + intros H. injection H as <-. rewrite (classify_raise_http sr c d Ec). right; left. eauto.
    + destruct (_ <? _)%Z.
      * intros H. injection H as <-. right; right. eauto.
      * match goal with |- context [poll_loop env tid mw fuel ?s] =>
          specialize (IH s); destruct (poll_loop env tid mw fuel s) end.
        exact IH.
  - destruct (get_task_status_raise_500 _ e Eg) as [d ->].
    intros H. injection H as <-. right; left. eauto.
Qed.

(** The polling loop returns successfully only with a response whose
    result object carries a status that, uppercased, is PROCESSED,
    COMPLETED, COMPLETE, SUCCESS or DONE. *)
Theorem poll_loop_returns_completed (env : Env) (tid : json) (mw : Z) (fuel : nat)
    (st : PollState) (resp : json) :
  fst (poll_loop env tid mw fuel st) = Some (Ok resp) -> completed_response resp.
Proof.
  intros H. destruct (poll_loop_result env tid mw fuel st _ H)
    as [[resp' [E Hc]]|[[d E]|[d E]]]; try discriminate.
  injection E as ->. exact Hc.
Qed.

Lemma poll_loop_returns_completed_witness :
  fst (poll_loop (pending_env "done") (JStr "t1") 1200 1 init_state) =
    Some (Ok (JObj [("data", JObj [("status", JStr "done")]);
                    ("image_urls", JArr []); ("task_status", JStr "done")])) /\
  completed_response (JObj [("data", JObj [("status", JStr "done")]);
                            ("image_urls", JArr []); ("task_status", JStr "done")]).
Proof.
  assert (H : fst (poll_loop (pending_env "done") (JStr "t1") 1200 1 init_state) =
    Some (Ok (JObj [("data", JObj [("status", JStr "done")]);
                    ("image_urls", JArr []); ("task_status", JStr "done")]))) by reflexivity.
  split; [exact H|]. exact (poll_loop_returns_completed _ _ _ _ _ _ H).
Defined.

(** The polling loop fails only with an [HTTPException] of status 500 (a
    failing status call, or a FAILED/ERROR status) or 408 (the deadline);
    every other Python exception raised while reading a response is
    absorbed by the loop. *)
Theorem poll_loop_raises_http_only (env : Env) (tid : json) (mw : Z) (fuel : nat)
    (st : PollState) (e : exn) :
  fst (poll_loop env tid mw fuel st) = Some (Raise e) ->
  exists c d, e = HTTPException c d /\ (c = 500 \/ c = 408)%Z.
Proof.
  intros H. destruct (poll_loop_result env tid mw fuel st _ H)
    as [[resp' [E Hc]]|[[d E]|[d E]]]; try discriminate; injection E as ->; eauto.
Qed.

Lemma poll_loop_raises_http_only_witness :
  fst (poll_loop (pending_env "error") (JStr "t1") 1200 1 init_state) =
    Some (Raise (HTTPException 500 "Image upscaling failed: Unknown error")) /\
  exists c d, HTTPException 500 "Image upscaling failed: Unknown error" = HTTPException c d /\
              (c = 500 \/ c = 408)%Z.
Proof.
  assert (H : fst (poll_loop (pending_env "error") (JStr "t1") 1200 1 init_state) =
    Some (Raise (HTTPException 500 "Image upscaling failed: Unknown error"))) by reflexivity.
  split; [exact H|]. exact (poll_loop_raises_http_only _ _ _ _ _ _ H).
Defined.

(** ** How long and how often the loop polls *)

Definition sum_Z (l : list Z) : Z := fold_right Z.add 0%Z l.

Lemma current_interval_le (i : nat) : (current_interval i <= 10000)%Z.
Proof.
  rewrite current_interval_spec.
  do 9 (destruct i as [|i]; [unfold backoff_spec; simpl; lia|]).
  unfold backoff_spec. simpl. destruct i; simpl; lia.
Qed.

Lemma poll_loop_sleep_bound (env : Env) (tid : json) (mw : Z) :
  (forall i, (0 <= env_cost env i)%Z) ->
  forall fuel st, (now st <= mw * 1000 + 10000)%Z ->
  (now st + sum_Z (sleeps (snd (poll_loop env tid mw fuel st))) <= mw * 1000 + 10000)%Z.
Proof.
  intros Hcost fuel. induction fuel as [|fuel IH]; intros st Hst; cbn [poll_loop].
  - simpl. lia.
  - destruct (poll_iteration _); [simpl; lia|simpl; lia|].
    destruct (Z.ltb_spec (mw * 1000) (now st + env_cost env (poll_index st))); [simpl; lia|].
    pose proof (current_interval_le (poll_index st)).
    pose proof (Hcost (poll_index st)).
    match goal with |- context [poll_loop env tid mw fuel ?s] =>
      specialize (IH s); destruct (poll_loop env tid mw fuel s) as [r tr] end.
    simpl in IH |- *. unfold sum_Z in *. simpl. lia.
Qed.

Lemma poll_loop_checks_sleeps (env : Env) (tid : json) (mw : Z) (fuel : nat) (st : PollState) :
  (500 * Z.of_nat (status_checks (snd (poll_loop env tid mw fuel st)))
   <= sum_Z (sleeps (snd (poll_loop env tid mw fuel st))) + 500)%Z.
Proof.
  revert st. induction fuel as [|fuel IH]; intros st; cbn [poll_loop].
  - simpl. lia.
  - destruct (poll_iteration _); [simpl; lia|simpl; lia|].
    destruct (_ <? _)%Z; [simpl; lia|].
    pose proof (current_interval_ge (poll_index st)).
    match goal with |- context [poll_loop env tid mw fuel ?s] =>
      specialize (IH s); destruct (poll_loop env tid mw fuel s) as [r tr] end.
    unfold status_checks, sum_Z in *. cbn [snd] in IH.
    cbn [snd filter is_status_check length sleeps fold_right].
    rewrite Nat2Z.inj_succ. lia.
Qed.

(** Whatever the remote answers, the time the loop spends sleeping never
    exceeds [max_wait_time] plus one longest interval (10 s), and the loop
    makes at most [2 * max_wait_time + 21] status checks (each sleep
    lasting at least 0.5 s). *)
Theorem poll_loop_bounded (env : Env) (tid : json) (max_wait_time : Z) (fuel : nat) :
  (forall i, (0 <= env_cost env i)%Z) ->
  (0 <= max_wait_time)%Z ->
  (sum_Z (sleeps (snd (poll_loop env tid max_wait_time fuel init_state)))
     <= max_wait_time * 1000 + 10000)%Z /\
  (Z.of_nat (status_checks (snd (poll_loop env tid max_wait_time fuel init_state)))
     <= 2 * max_wait_time + 21)%Z.
Proof.
  intros Hcost Hmw.
  pose proof (poll_loop_sleep_bound env tid max_wait_time Hcost fuel init_state) as H1.
  pose proof (poll_loop_checks_sleeps env tid max_wait_time fuel init_state) as H2.
  change (now init_state) with 0%Z in H1. split; lia.
Qed.

Lemma poll_loop_bounded_witness :
  (sum_Z (sleeps (snd (poll_loop (pending_env "PENDING") (JStr "t1") 5 100 init_state)))
     <= 5 * 1000 + 10000)%Z /\
  (Z.of_nat (status_checks (snd (poll_loop (pending_env "PENDING") (JStr "t1") 5 100 init_state)))
     <= 2 * 5 + 21)%Z.
Proof.
  apply poll_loop_bounded; [intros i; simpl; lia|lia].
Defined.

(** ** The synchronous upscale *)

Lemma poll_loop_events (env : Env) (tid : json) (mw : Z) (fuel : nat) (st : PollState)
    (ev : event) :
  In ev (snd (poll_loop env tid mw fuel st)) ->
  ev = EGetTaskStatus (status_request tid) \/ exists ms, ev = ESleep ms.
Proof.
  revert st. induction fuel as [|fuel IH]; intros st; cbn [poll_loop]; [simpl; tauto|].
  destruct (poll_iteration _); [simpl; intuition|simpl; intuition|].
  destruct (_ <? _)%Z; [simpl; intuition|].
  match goal with |- context [poll_loop env tid mw fuel ?s] =>
    specialize (IH s); destruct (poll_loop env tid mw fuel s) as [r tr] end.
  simpl in IH |- *. intros [<-|[<-|Hin]]; [left; reflexivity|right; eauto|exact (IH Hin)].
Qed.

(** [upscale_images_sync] starts with exactly one start-task POST that
    carries every given file (it checks neither their number nor their
    types), and everything after it is status checks for the returned
    task and sleeps. *)
Theorem sync_starts_once (start_remote : remote_response) (env : Env)
    (files : list UploadFile) (request_params : UpscaleRequest) (mw : Z) (fuel : nat) :
  exists rest,
    snd (upscale_images_sync start_remote env files request_params mw fuel) =
      EStartTask (files_data_of files) (start_payload request_params) :: rest /\
    forall ev, In ev rest ->
      (exists tid, ev = EGetTaskStatus (status_request tid)) \/ exists ms, ev = ESleep ms.
Proof.
  unfold upscale_images_sync, upscale_images_service.
  destruct start_remote as [m|j]; [exists []; split; [reflexivity|simpl; tauto]|].
  destruct (extract_task_id j) as [tid|e]; [|exists []; split; [reflexivity|simpl; tauto]].
  destruct (poll_loop env tid mw fuel init_state) as [r evs] eqn:E.
  exists evs. split; [reflexivity|]. intros ev Hin.
  assert (Hin' : In ev (snd (poll_loop env tid mw fuel init_state))) by (rewrite E; exact Hin).
  destruct (poll_loop_events env tid mw fuel init_state ev Hin') as [->|H]; eauto.
Qed.

(** [upscale_images_sync] fails only with status 500 (start failure, no
    task id, failing status call, remote FAILED/ERROR status) or 408
    (deadline). *)
Theorem sync_fails_500_or_408 (start_remote : remote_response) (env : Env)
    (files : list UploadFile) (request_params : UpscaleRequest) (mw : Z) (fuel : nat) (e : exn) :
  fst (upscale_images_sync start_remote env files request_params mw fuel) = Some (Raise e) ->
  (http_status e = 500 \/ http_status e = 408)%Z.
Proof.
  unfold upscale_images_sync, upscale_images_service.
  destruct start_remote as [m|j]; simpl.
  - intros H. injection H as <-. left. reflexivity.
  - destruct (extract_task_id j) as [tid|e'] eqn:Ex.
    + destruct (poll_loop env tid mw fuel init_state) as [r evs] eqn:E. simpl. intros H.
      assert (H' : fst (poll_loop env tid mw fuel init_state) = Some (Raise e))
        by (rewrite E; exact H).
      destruct (poll_loop_result env tid mw fuel init_state _ H')
        as [[resp [Er _]]|[[d Er]|[d Er]]]; try discriminate; injection Er as ->; simpl; auto.
    + intros H. injection H as <-. left. exact (extract_task_id_raise j e' Ex).
Qed.

Lemma sync_fails_500_or_408_witness :
  fst (upscale_images_sync (RemoteBody (JObj [("data", JObj [("taskId", JStr "t1")])]))
         (pending_env "PENDING") [png_file] default_params (-1) 5) =
    Some (Raise (HTTPException 408 (timeout_detail 0 (JStr "t1")))) /\
  (http_status (HTTPException 408 (timeout_detail 0 (JStr "t1"))) = 500 \/
   http_status (HTTPException 408 (timeout_detail 0 (JStr "t1"))) = 408)%Z.
Proof.
  assert (H : fst (upscale_images_sync (RemoteBody (JObj [("data", JObj [("taskId", JStr "t1")])]))
         (pending_env "PENDING") [png_file] default_params (-1) 5) =
    Some (Raise (HTTPException 408 (timeout_detail 0 (JStr "t1"))))) by reflexivity.
  split; [exact H|]. exact (sync_fails_500_or_408 _ _ _ _ _ _ _ H).
Defined.

(** The task id is read from a start response exactly when the response
    is an object whose "data" is an object with a "taskId" key, and it is
    that key's value, whatever its type. *)
Theorem extract_task_id_iff (j v : json) :
  extract_task_id j = Ok v <->
  exists kvs dkvs, j = JObj kvs /\ assoc_lookup "data" kvs = Some (JObj dkvs) /\
                   assoc_lookup "taskId" dkvs = Some v.
Proof.
  split; [exact (extract_task_id_ok j v)|].
  intros [kvs [dkvs [-> [Hd Ht]]]].
  unfold extract_task_id, bind, py_contains, py_getitem. rewrite Hd, Ht. reflexivity.
Qed.
